(** * PsychoJS core: configuration, start and termination

    A shallow embedding of [src/core/PsychoJS.js] (class [PsychoJS]):
    the constructor, [_configure], [_getParticipantIPInfo],
    [_makeStatusTopLevel], [getEnvironment], [importAttributes],
    [openWindow], [setRedirectUrls], [start], [quit] and the
    [PsychoJS.Status] table.

    JavaScript values are an inductive type, objects are ordered
    key/value lists, the instance fields of [PsychoJS] are a record, and
    the methods are functions in a state-and-exception monad over that
    record.  Calls into the other modules of the library (the server
    manager, the experiment handler, the GUI, the scheduler, the browser)
    are recorded as events; the calls whose outcome the methods depend on
    take that outcome from a [World] record. *)

From Stdlib Require Import ZArith String List Bool Lia DecimalString.
From stdpp Require Import base option gmap strings list.

Set Warnings "-register-all".

Local Open Scope string_scope.
Local Open Scope Z_scope.

(* ================================================================== *)
(** ** JavaScript values *)
(* ================================================================== *)

(** Numbers are integers here: the only numbers the modelled code
    computes with are timer identifiers, the upload period in minutes and
    the literal [-1].  [JSym k] is the registry symbol [Symbol.for(k)].
    [JTypeError] is the [TypeError] the engine raises on a property access
    on [undefined]/[null] or on [in] applied to a primitive; its message is
    engine specific and is not modelled. *)
Inductive JsVal : Type :=
| JUndefined
| JNull
| JBool (b : bool)
| JNum (n : Z)
| JStr (s : string)
| JSym (key : string)
| JArr (elems : list JsVal)
| JObj (props : list (string * JsVal))
| JTypeError.

(** [Symbol.for(key)]: one symbol per key in the global registry. *)
Definition Symbol_for (key : string) : JsVal := JSym key.

(** Outcome of evaluating an expression or statement: a value, or a
    thrown value. *)
Inductive Outcome (A : Type) : Type :=
| Ret (a : A)
| Throw (e : JsVal).
Arguments Ret {A} a.
Arguments Throw {A} e.

(** *** Ordered property lists *)

Fixpoint assoc_get (k : string) (l : list (string * JsVal)) : option JsVal :=
  match l with
  | [] => None
  | (k', v) :: l' => if String.eqb k k' then Some v else assoc_get k l'
  end.

(** Assignment keeps the position of an existing key and appends a new
    one, as property creation order does. *)
Fixpoint assoc_set (k : string) (v : JsVal) (l : list (string * JsVal))
  : list (string * JsVal) :=
  match l with
  | [] => [(k, v)]
  | (k', v') :: l' =>
      if String.eqb k k' then (k', v) :: l' else (k', v') :: assoc_set k v l'
  end.

Fixpoint assoc_del (k : string) (l : list (string * JsVal))
  : list (string * JsVal) :=
  match l with
  | [] => []
  | (k', v') :: l' =>
      if String.eqb k k' then assoc_del k l' else (k', v') :: assoc_del k l'
  end.

Definition assoc_has (k : string) (l : list (string * JsVal)) : bool :=
  match assoc_get k l with
  | Some _ => true
  | None => false
  end.

(** The own properties of an array: its indices, then [length]. *)
Definition index_key (i : nat) : string :=
  NilZero.string_of_uint (Nat.to_uint i).

Definition array_props (elems : list JsVal) : list (string * JsVal) :=
  combine (map index_key (seq 0 (length elems))) elems
  ++ [("length", JNum (Z.of_nat (length elems)))].

(** *** Property operations

    Inherited properties ([Object.prototype], [Array.prototype]) are not
    modelled: none of the keys the class tests or reads ([experiment],
    [name], [fullpath], [pavlovia], [URL], [gitlab], [projectId],
    [psychoJsManager], [config], [environment], [resultsUpload],
    [intervalId], [period], [saveIncompleteResults]) is inherited. *)

(** [k in o] *)
Definition js_in (k : string) (o : JsVal) : Outcome bool :=
  match o with
  | JObj props => Ret (assoc_has k props)
  | JArr elems => Ret (assoc_has k (array_props elems))
  | _ => Throw JTypeError
  end.

(** [o.k] *)
Definition js_get (o : JsVal) (k : string) : Outcome JsVal :=
  match o with
  | JUndefined | JNull => Throw JTypeError
  | JObj props => Ret (default JUndefined (assoc_get k props))
  | JArr elems => Ret (default JUndefined (assoc_get k (array_props elems)))
  | _ => Ret JUndefined
  end.

(** [o.k = v] in strict mode (class bodies are strict code).  Named
    properties on arrays cannot be represented; the class never assigns
    one (every assignment target has passed an [in] test for a key that
    no array owns). *)
Definition js_set (o : JsVal) (k : string) (v : JsVal) : Outcome JsVal :=
  match o with
  | JObj props => Ret (JObj (assoc_set k v props))
  | _ => Throw JTypeError
  end.

(** [delete o.k] *)
Definition js_delete (o : JsVal) (k : string) : Outcome JsVal :=
  match o with
  | JUndefined | JNull => Throw JTypeError
  | JObj props => Ret (JObj (assoc_del k props))
  | _ => Ret o
  end.

(** [o.k1.k2...kn]: a chain of property reads. *)
Fixpoint js_get_path (o : JsVal) (path : list string) : Outcome JsVal :=
  match path with
  | [] => Ret o
  | k :: path' =>
      match js_get o k with
      | Ret c => js_get_path c path'
      | Throw e => Throw e
      end
  end.

(** Objects are values in this model, so a mutation of the object reached
    through [o.k1...kn] is a functional update along that path.  The
    object graph of a configuration is a tree reached only through
    [this._config], so no alias observes the difference. *)
Fixpoint js_update_path (o : JsVal) (path : list string)
  (f : JsVal -> Outcome JsVal) : Outcome JsVal :=
  match path with
  | [] => f o
  | k :: path' =>
      match js_get o k with
      | Ret c =>
          match js_update_path c path' f with
          | Ret c' => js_set o k c'
          | Throw e => Throw e
          end
      | Throw e => Throw e
      end
  end.

(** [a === b] on primitives.  Two object references are never compared
    by the class. *)
Definition js_strict_eq (a b : JsVal) : bool :=
  match a, b with
  | JUndefined, JUndefined => true
  | JNull, JNull => true
  | JBool x, JBool y => Bool.eqb x y
  | JNum x, JNum y => Z.eqb x y
  | JStr x, JStr y => String.eqb x y
  | JSym x, JSym y => String.eqb x y
  | _, _ => false
  end.

(** [ToNumber(a)], [None] standing for [NaN].  The conversions of
    strings, arrays and objects are not modelled and read as [NaN] (the
    upload options the class computes with are numbers). *)
Definition js_to_number (a : JsVal) : option Z :=
  match a with
  | JNum n => Some n
  | JBool b => Some (if b then 1 else 0)
  | JNull => Some 0
  | _ => None
  end.

(** [a > 0]: false when [a] converts to [NaN]. *)
Definition js_gt_zero (a : JsVal) : bool :=
  match js_to_number a with
  | Some n => 0 <? n
  | None => false
  end.

(** [a * k] for a numeric literal [k]. *)
Definition js_times (a : JsVal) (k : Z) : option Z :=
  match js_to_number a with
  | Some n => Some (n * k)
  | None => None
  end.

(** Truthiness of a value used as a condition. *)
Definition js_truthy (a : JsVal) : bool :=
  match a with
  | JUndefined | JNull => false
  | JBool b => b
  | JNum n => negb (n =? 0)
  | JStr s => negb (String.eqb s "")
  | _ => true
  end.

(** [s.indexOf(pat)]: index of the first occurrence, or [-1]. *)
Definition js_indexOf (s pat : string) : Z :=
  match String.index 0 pat s with
  | Some i => Z.of_nat i
  | None => -1
  end.

(* ================================================================== *)
(** ** Constants of the library *)
(* ================================================================== *)

(** [PsychoJS.Status], as the table at the end of the file declares it:
    [STOPPED] is declared with the key of [FINISHED]. *)
Module Status.
Definition CONFIGURED : JsVal := Symbol_for "CONFIGURED".
Definition CONFIGURING : JsVal := Symbol_for "CONFIGURING".
Definition ERROR : JsVal := Symbol_for "ERROR".
Definition FINISHED : JsVal := Symbol_for "FINISHED".
Definition NOT_CONFIGURED : JsVal := Symbol_for "NOT_CONFIGURED".
Definition NOT_STARTED : JsVal := Symbol_for "NOT_STARTED".
Definition PAUSED : JsVal := Symbol_for "PAUSED".
Definition STARTED : JsVal := Symbol_for "STARTED".
Definition STOPPED : JsVal := Symbol_for "FINISHED".
End Status.

(** Modelled from the spec: [ExperimentHandler.Environment] and
    [ExperimentHandler.SaveFormat] are declared in
    [data/ExperimentHandler.js], which is not among the sources.  The
    spec names the environments [LOCAL] and [SERVER] and the save format
    CSV; they are taken to be registry symbols with those keys, like the
    [Status] table. *)
Module Environment.
Definition SERVER : JsVal := Symbol_for "SERVER".
Definition LOCAL : JsVal := Symbol_for "LOCAL".
End Environment.

Module SaveFormat.
Definition CSV : JsVal := Symbol_for "CSV".
End SaveFormat.

(* ================================================================== *)
(** ** The instance, its collaborators and the method monad *)
(* ================================================================== *)

(** Calls into the collaborators, in the order they are made. *)
Inductive Event : Type :=
| EvGetConfiguration (configURL : string)
| EvGetParticipantIPInfo
| EvNewExperimentHandler
| EvOpenSession (params : JsVal)
| EvAddBeforeUnloadListener
| EvRemoveBeforeUnloadListener
| EvAddUnloadListener
| EvSetInterval (ms : option Z)
| EvClearInterval (id : JsVal)
| EvPrepareResources
| EvAddData (key value : string)
| EvNextEntry
| EvSchedulerStart
| EvSchedulerStop
| EvNewWindow
| EvFinishDialog (nbSteps : Z)
| EvFinishDialogNextStep (text : string)
| EvExperimentSave
| EvLoggerFlush
| EvCloseSession (isCompleted : bool)
| EvDialogMessage (text : JsVal)
| EvDialogWebGLWarning
| EvCloseDialog
| EvWindowClose
| EvRemoveBodyChildren
| EvCloseFullScreen
| EvRedirect (url : JsVal)
| EvExperimentSaveSync
| EvCloseSessionSync.

(** The two fields of the experiment handler that [quit] writes. *)
Record ExperimentHandler : Type := {
  experimentEnded : bool;
  isCompleted : bool
}.

(** The fields of a [PsychoJS] instance.  [_config] is [JUndefined] until
    [_configure] assigns it; [_serverMsg] and [_experiment] are [None]
    while the field is [undefined]; [_window] is [true] once [openWindow]
    has created the window.  [events] is the log of collaborator calls. *)
Record PsychoJS : Type := {
  _hosts : list string;
  _collectIP : bool;
  _autoStartScheduler : bool;
  _checkWebGLSupport : bool;
  _status : JsVal;
  _config : JsVal;
  _serverMsg : option (gmap string string);
  _saveResults : bool;
  _IP : JsVal;
  _experiment : option ExperimentHandler;
  _window : bool;
  _surveyId : JsVal;
  _completionUrl : JsVal;
  _cancellationUrl : JsVal;
  beforeunloadCallback : bool;
  events : list Event
}.

Definition with_status (v : JsVal) (t : PsychoJS) : PsychoJS :=
  {| _hosts := _hosts t; _collectIP := _collectIP t;
     _autoStartScheduler := _autoStartScheduler t;
     _checkWebGLSupport := _checkWebGLSupport t;
     _status := v; _config := _config t; _serverMsg := _serverMsg t;
     _saveResults := _saveResults t; _IP := _IP t;
     _experiment := _experiment t; _window := _window t;
     _surveyId := _surveyId t; _completionUrl := _completionUrl t;
     _cancellationUrl := _cancellationUrl t;
     beforeunloadCallback := beforeunloadCallback t; events := events t |}.

Definition with_config (v : JsVal) (t : PsychoJS) : PsychoJS :=
  {| _hosts := _hosts t; _collectIP := _collectIP t;
     _autoStartScheduler := _autoStartScheduler t;
     _checkWebGLSupport := _checkWebGLSupport t;
     _status := _status t; _config := v; _serverMsg := _serverMsg t;
     _saveResults := _saveResults t; _IP := _IP t;
     _experiment := _experiment t; _window := _window t;
     _surveyId := _surveyId t; _completionUrl := _completionUrl t;
     _cancellationUrl := _cancellationUrl t;
     beforeunloadCallback := beforeunloadCallback t; events := events t |}.

Definition with_serverMsg (v : option (gmap string string)) (t : PsychoJS)
  : PsychoJS :=
  {| _hosts := _hosts t; _collectIP := _collectIP t;
     _autoStartScheduler := _autoStartScheduler t;
     _checkWebGLSupport := _checkWebGLSupport t;
     _status := _status t; _config := _config t; _serverMsg := v;
     _saveResults := _saveResults t; _IP := _IP t;
     _experiment := _experiment t; _window := _window t;
     _surveyId := _surveyId t; _completionUrl := _completionUrl t;
     _cancellationUrl := _cancellationUrl t;
     beforeunloadCallback := beforeunloadCallback t; events := events t |}.

Definition with_saveResults (v : bool) (t : PsychoJS) : PsychoJS :=
  {| _hosts := _hosts t; _collectIP := _collectIP t;
     _autoStartScheduler := _autoStartScheduler t;
     _checkWebGLSupport := _checkWebGLSupport t;
     _status := _status t; _config := _config t; _serverMsg := _serverMsg t;
     _saveResults := v; _IP := _IP t;
     _experiment := _experiment t; _window := _window t;
     _surveyId := _surveyId t; _completionUrl := _completionUrl t;
     _cancellationUrl := _cancellationUrl t;
     beforeunloadCallback := beforeunloadCallback t; events := events t |}.

Definition with_IP (v : JsVal) (t : PsychoJS) : PsychoJS :=
  {| _hosts := _hosts t; _collectIP := _collectIP t;
     _autoStartScheduler := _autoStartScheduler t;
     _checkWebGLSupport := _checkWebGLSupport t;
     _status := _status t; _config := _config t; _serverMsg := _serverMsg t;
     _saveResults := _saveResults t; _IP := v;
     _experiment := _experiment t; _window := _window t;
     _surveyId := _surveyId t; _completionUrl := _completionUrl t;
     _cancellationUrl := _cancellationUrl t;
     beforeunloadCallback := beforeunloadCallback t; events := events t |}.

Definition with_experiment (v : option ExperimentHandler) (t : PsychoJS)
  : PsychoJS :=
  {| _hosts := _hosts t; _collectIP := _collectIP t;
     _autoStartScheduler := _autoStartScheduler t;
     _checkWebGLSupport := _checkWebGLSupport t;
     _status := _status t; _config := _config t; _serverMsg := _serverMsg t;
     _saveResults := _saveResults t; _IP := _IP t;
     _experiment := v; _window := _window t;
     _surveyId := _surveyId t; _completionUrl := _completionUrl t;
     _cancellationUrl := _cancellationUrl t;
     beforeunloadCallback := beforeunloadCallback t; events := events t |}.

Definition with_window (v : bool) (t : PsychoJS) : PsychoJS :=
  {| _hosts := _hosts t; _collectIP := _collectIP t;
     _autoStartScheduler := _autoStartScheduler t;
     _checkWebGLSupport := _checkWebGLSupport t;
     _status := _status t; _config := _config t; _serverMsg := _serverMsg t;
     _saveResults := _saveResults t; _IP := _IP t;
     _experiment := _experiment t; _window := v;
     _surveyId := _surveyId t; _completionUrl := _completionUrl t;
     _cancellationUrl := _cancellationUrl t;
     beforeunloadCallback := beforeunloadCallback t; events := events t |}.

Definition with_surveyId (v : JsVal) (t : PsychoJS) : PsychoJS :=
  {| _hosts := _hosts t; _collectIP := _collectIP t;
     _autoStartScheduler := _autoStartScheduler t;
     _checkWebGLSupport := _checkWebGLSupport t;
     _status := _status t; _config := _config t; _serverMsg := _serverMsg t;
     _saveResults := _saveResults t; _IP := _IP t;
     _experiment := _experiment t; _window := _window t;
     _surveyId := v; _completionUrl := _completionUrl t;
     _cancellationUrl := _cancellationUrl t;
     beforeunloadCallback := beforeunloadCallback t; events := events t |}.

Definition with_redirectUrls (completion cancellation : JsVal)
  (t : PsychoJS) : PsychoJS :=
  {| _hosts := _hosts t; _collectIP := _collectIP t;
     _autoStartScheduler := _autoStartScheduler t;
     _checkWebGLSupport := _checkWebGLSupport t;
     _status := _status t; _config := _config t; _serverMsg := _serverMsg t;
     _saveResults := _saveResults t; _IP := _IP t;
     _experiment := _experiment t; _window := _window t;
     _surveyId := _surveyId t; _completionUrl := completion;
     _cancellationUrl := cancellation;
     beforeunloadCallback := beforeunloadCallback t; events := events t |}.

Definition with_beforeunloadCallback (v : bool) (t : PsychoJS) : PsychoJS :=
  {| _hosts := _hosts t; _collectIP := _collectIP t;
     _autoStartScheduler := _autoStartScheduler t;
     _checkWebGLSupport := _checkWebGLSupport t;
     _status := _status t; _config := _config t; _serverMsg := _serverMsg t;
     _saveResults := _saveResults t; _IP := _IP t;
     _experiment := _experiment t; _window := _window t;
     _surveyId := _surveyId t; _completionUrl := _completionUrl t;
     _cancellationUrl := _cancellationUrl t;
     beforeunloadCallback := v; events := events t |}.

Definition with_event (e : Event) (t : PsychoJS) : PsychoJS :=
  {| _hosts := _hosts t; _collectIP := _collectIP t;
     _autoStartScheduler := _autoStartScheduler t;
     _checkWebGLSupport := _checkWebGLSupport t;
     _status := _status t; _config := _config t; _serverMsg := _serverMsg t;
     _saveResults := _saveResults t; _IP := _IP t;
     _experiment := _experiment t; _window := _window t;
     _surveyId := _surveyId t; _completionUrl := _completionUrl t;
     _cancellationUrl := _cancellationUrl t;
     beforeunloadCallback := beforeunloadCallback t;
     events := events t ++ [e] |}.

(** What the methods obtain from outside the class.  The awaited calls
    into the server manager, the experiment handler and the logger
    receive the configuration object (they hold a reference to the
    instance) and return it as they leave it, with their outcome. *)
Record World : Type := {
  (** [window.location.href] *)
  location_href : string;
  (** the entries of [util.getUrlParameters()], in iteration order *)
  getUrlParameters : list (string * string);
  (** [await this._serverManager.getConfiguration(configURL)] *)
  getConfiguration : string -> Outcome JsVal;
  (** [await this._serverManager.openSession(params)] *)
  openSession : JsVal -> JsVal -> Outcome unit * JsVal;
  (** [await this._experiment.save()] *)
  experiment_save : JsVal -> Outcome unit * JsVal;
  (** [await this._logger.flush()] *)
  logger_flush : JsVal -> Outcome unit * JsVal;
  (** [await this._serverManager.closeSession(isCompleted)] *)
  closeSession : bool -> JsVal -> Outcome unit * JsVal;
  (** [Window.checkWebGLSupport()] *)
  Window_checkWebGLSupport : bool;
  (** the identifier [setInterval] returns *)
  setInterval_id : Z
}.

(** Methods: a state transformer over the instance that returns or
    throws.  A throw keeps the mutations made so far. *)
Definition M (A : Type) : Type := PsychoJS -> Outcome A * PsychoJS.

Definition ret {A : Type} (a : A) : M A := fun t => (Ret a, t).

Definition bind {A B : Type} (m : M A) (f : A -> M B) : M B :=
  fun t =>
    match m t with
    | (Ret a, t') => f a t'
    | (Throw e, t') => (Throw e, t')
    end.

Declare Scope method_scope.
Delimit Scope method_scope with method.
Bind Scope method_scope with M.

Notation "x ← y ; z" := (bind y (fun x => z))
  (at level 20, y at level 100, z at level 200, only parsing) : method_scope.
Notation "x ;; z" := (bind x (fun _ => z))
  (at level 100, z at level 200, only parsing, right associativity)
  : method_scope.

Local Open Scope method_scope.

Definition throw {A : Type} (e : JsVal) : M A := fun t => (Throw e, t).

Definition lift {A : Type} (o : Outcome A) : M A := fun t => (o, t).

Definition gets {A : Type} (f : PsychoJS -> A) : M A := fun t => (Ret (f t), t).

Definition modify (f : PsychoJS -> PsychoJS) : M unit := fun t => (Ret tt, f t).

Definition emit (e : Event) : M unit := modify (with_event e).

(** [try { body } catch (error) { handler error }] *)
Definition try_catch {A : Type} (body : M A) (handler : JsVal -> M A) : M A :=
  fun t =>
    match body t with
    | (Ret a, t') => (Ret a, t')
    | (Throw e, t') => handler e t'
    end.

(** [if (c) { body }] *)
Definition when (c : bool) (body : M unit) : M unit :=
  if c then body else ret tt.

(** [l.forEach(f)] *)
Fixpoint forEach {A : Type} (l : list A) (f : A -> M unit) : M unit :=
  match l with
  | [] => ret tt
  | x :: l' => f x ;; forEach l' f
  end.

(** [this._config.k1...kn] *)
Definition config_read (path : list string) : M JsVal :=
  fun t => (js_get_path (_config t) path, t).

(** [k in this._config.k1...kn] *)
Definition config_has (k : string) (path : list string) : M bool :=
  c ← config_read path; lift (js_in k c).

(** A mutation of the object [this._config.k1...kn]. *)
Definition config_update (path : list string) (f : JsVal -> Outcome JsVal)
  : M unit :=
  fun t =>
    match js_update_path (_config t) path f with
    | Ret c => (Ret tt, with_config c t)
    | Throw e => (Throw e, t)
    end.

(** An awaited call that may touch the configuration. *)
Definition external (call : JsVal -> Outcome unit * JsVal) : M unit :=
  fun t => let '(r, c) := call (_config t) in (r, with_config c t).

(** [this._serverMsg.set(key, value)] *)
Definition serverMsg_set (key value : string) : M unit :=
  fun t =>
    match _serverMsg t with
    | Some m => (Ret tt, with_serverMsg (Some (<[key := value]> m)) t)
    | None => (Throw JTypeError, t)
    end.

(** [this._serverMsg.has(key)] *)
Definition serverMsg_has (key : string) : M bool :=
  fun t =>
    match _serverMsg t with
    | Some m => (Ret (bool_decide (is_Some (m !! key))), t)
    | None => (Throw JTypeError, t)
    end.

(** [this._serverMsg.get(key)] *)
Definition serverMsg_get (key : string) : M JsVal :=
  fun t =>
    match _serverMsg t with
    | Some m => (Ret (from_option JStr JUndefined (m !! key)), t)
    | None => (Throw JTypeError, t)
    end.

(* ================================================================== *)
(** ** The constructor *)
(* ================================================================== *)

(** The constructor options that reach the modelled fields. *)
Record Options : Type := {
  opt_autoStartScheduler : bool;
  opt_checkWebGLSupport : bool;
  opt_collectIP : bool;
  opt_hosts : list string;
  opt_saveResults : bool
}.

Definition default_options : Options :=
  {| opt_autoStartScheduler := true; opt_checkWebGLSupport := false;
     opt_collectIP := false; opt_hosts := []; opt_saveResults := true |}.

(** [Array.from(new Set(l))]: first occurrences, in order. *)
Fixpoint array_from_set (seen l : list string) : list string :=
  match l with
  | [] => []
  | x :: l' =>
      if existsb (String.eqb x) seen then array_from_set seen l'
      else x :: array_from_set (x :: seen) l'
  end.

Definition new_PsychoJS (o : Options) : PsychoJS :=
  {| _hosts :=
       array_from_set []
         (["https://devlovia.org/run/"; "https://pavlovia.org/run/";
           "https://run.devlovia.org/"; "https://run.pavlovia.org/"]
          ++ opt_hosts o);
     _collectIP := opt_collectIP o;
     _autoStartScheduler := opt_autoStartScheduler o;
     _checkWebGLSupport := opt_checkWebGLSupport o;
     _status := Status.NOT_CONFIGURED;
     _config := JUndefined;
     _serverMsg := None;
     _saveResults := opt_saveResults o;
     _IP := JUndefined;
     _experiment := None;
     _window := false;
     _surveyId := JUndefined;
     _completionUrl := JUndefined;
     _cancellationUrl := JUndefined;
     beforeunloadCallback := false;
     events := [] |}.

(* ================================================================== *)
(** ** The methods *)
(* ================================================================== *)

Section Methods.

Context (w : World).

(** [{origin, context}] extended with [error]: the thrown triple.
    [Object.assign(response, {error})] and [{...response, error}] build
    the same properties in the same order. *)
Definition with_error (context origin : string) (error : JsVal) : JsVal :=
  JObj [("context", JStr context); ("origin", JStr origin); ("error", error)].

(** [if (!(k in this._config.path)) { throw msg; }] *)
Definition require_in (k : string) (path : list string) (msg : string)
  : M unit :=
  present ← config_has k path;
  when (negb present) (throw (JStr msg)).

(** [_configure], the branch of an approved host up to the legacy update:
    the configuration is read from the server, and a [psychoJsManager]
    block is replaced by a [pavlovia] block. *)
Definition read_server_configuration (configURL : string) : M unit :=
  emit (EvGetConfiguration configURL) ;;
  serverResponse ← lift (getConfiguration w configURL);
  config ← lift (js_get serverResponse "config");
  modify (with_config config) ;;
  legacy ← config_has "psychoJsManager" [];
  when legacy
    (config_update [] (fun c => js_delete c "psychoJsManager") ;;
     config_update []
       (fun c => js_set c "pavlovia"
                   (JObj [("URL", JStr "https://pavlovia.org")]))).

(** [_configure], the tests for the presence of the essential blocks. *)
Definition check_essential_blocks : M unit :=
  require_in "experiment" [] "missing experiment block in configuration" ;;
  require_in "name" ["experiment"]
    "missing name in experiment block in configuration" ;;
  require_in "fullpath" ["experiment"]
    "missing fullpath in experiment block in configuration" ;;
  require_in "pavlovia" [] "missing pavlovia block in configuration" ;;
  require_in "URL" ["pavlovia"]
    "missing URL in pavlovia block in configuration" ;;
  require_in "gitlab" [] "missing gitlab block in configuration" ;;
  require_in "projectId" ["gitlab"]
    "missing projectId in gitlab block in configuration".

(** [_configure], the ad-hoc configuration of a local run. *)
Definition local_configuration (name : string) : JsVal :=
  JObj [("environment", Environment.LOCAL);
        ("experiment",
         JObj [("keys", JArr []);
               ("name", JStr name);
               ("saveFormat", SaveFormat.CSV);
               ("saveIncompleteResults", JBool true)])].

(** [_configure], the statements after the [if (isHost)] statement: the
    upload options, the server parameters and the final status.  The
    closing [logger.debug] call is not modelled. *)
Definition finish_configuration : M unit :=
  config_update ["experiment"]
    (fun c => js_set c "resultsUpload"
                (JObj [("intervalId", JNum (-1)); ("period", JNum (-1))])) ;;
  modify (with_serverMsg (Some ∅)) ;;
  forEach (getUrlParameters w)
    (fun '(key, value) =>
       when (js_indexOf key "__" =? 0) (serverMsg_set key value)) ;;
  noOutput ← serverMsg_has "__noOutput";
  when noOutput (modify (with_saveResults false)) ;;
  modify (with_status Status.CONFIGURED).

(** [this._hosts.some((url) => experimentUrl.indexOf(url) === 0)] *)
Definition isHost (hosts : list string) : bool :=
  let experimentUrl := location_href w in
  existsb (fun url => js_indexOf experimentUrl url =? 0) hosts.

(** The body of the [try] block of [_configure]. *)
Definition _configure_body (configURL name : string) : M unit :=
  modify (with_status Status.CONFIGURING) ;;
  hosts ← gets _hosts;
  (if isHost hosts then
     read_server_configuration configURL ;;
     check_essential_blocks ;;
     config_update [] (fun c => js_set c "environment" Environment.SERVER)
   else
     modify (with_config (local_configuration name))) ;;
  finish_configuration.

(** [async _configure(configURL, name)] *)
Definition _configure (configURL name : string) : M unit :=
  try_catch (_configure_body configURL name)
    (fun error =>
       throw (with_error "when configuring PsychoJS for the experiment"
                "PsychoJS.configure" error)).

(** [getEnvironment()] *)
Definition getEnvironment : M JsVal :=
  config ← gets _config;
  if js_strict_eq config JUndefined then ret JUndefined
  else lift (js_get config "environment").

(** [setRedirectUrls(completionUrl, cancellationUrl)] *)
Definition setRedirectUrls (completionUrl cancellationUrl : JsVal) : M unit :=
  modify (with_redirectUrls completionUrl cancellationUrl).

(** [openWindow(options)] *)
Definition openWindow : M unit :=
  window ← gets _window;
  if window then
    throw (JObj [("context", JStr "when opening a Window");
                 ("error", JStr "A Window has already been opened.");
                 ("origin", JStr "PsychoJS.openWindow")])
  else
    emit EvNewWindow ;;
    modify (with_window true).

(** A method call on [this._window], a [TypeError] while it is
    [undefined]. *)
Definition window_call (e : Event) : M unit :=
  window ← gets _window;
  if window then emit e else throw JTypeError.

(** The upload timer is stopped the same way by [quit] and by the
    [unload] listener. *)
Definition stop_upload_timer : M unit :=
  intervalId ← config_read ["experiment"; "resultsUpload"; "intervalId"];
  when (js_gt_zero intervalId)
    (emit (EvClearInterval intervalId) ;;
     config_update ["experiment"; "resultsUpload"]
       (fun c => js_set c "intervalId" (JNum (-1)))).

(** [delete this._config.experiment.resultsUpload.lastUploadTimestamp] *)
Definition delete_lastUploadTimestamp : M unit :=
  config_update ["experiment"; "resultsUpload"]
    (fun c => js_delete c "lastUploadTimestamp").

(** The closure [onTerminate] of [quit]. *)
Definition onTerminate (closeWindow isCompleted : bool) : M unit :=
  when closeWindow
    (window_call EvWindowClose ;;
     emit EvRemoveBodyChildren) ;;
  window_call EvCloseFullScreen ;;
  modify (with_status Status.FINISHED) ;;
  completionUrl ← gets _completionUrl;
  cancellationUrl ← gets _cancellationUrl;
  if isCompleted && negb (js_strict_eq completionUrl JUndefined) then
    emit (EvRedirect completionUrl)
  else if negb isCompleted && negb (js_strict_eq cancellationUrl JUndefined)
  then emit (EvRedirect cancellationUrl)
  else ret tt.

(** The body of the [try] block of [quit]. *)
Definition quit_body (closeWindow isCompleted : bool) (message : JsVal)
  (showOK isServerEnv : bool) : M unit :=
  emit EvSchedulerStop ;;
  when isServerEnv (emit EvRemoveBeforeUnloadListener) ;;
  stop_upload_timer ;;
  delete_lastUploadTimestamp ;;
  saveResults ← gets _saveResults;
  emit (EvFinishDialog
          ((if saveResults then 2 else 0) + (if isServerEnv then 1 else 0))) ;;
  wanted ← (if isCompleted then ret true
            else v ← config_read ["experiment"; "saveIncompleteResults"];
                 ret (js_truthy v));
  when wanted
    (saveResults ← gets _saveResults;
     when saveResults
       (emit (EvFinishDialogNextStep "saving results") ;;
        emit EvExperimentSave ;;
        external (experiment_save w) ;;
        emit (EvFinishDialogNextStep "saving logs") ;;
        emit EvLoggerFlush ;;
        external (logger_flush w))) ;;
  when isServerEnv
    (emit (EvFinishDialogNextStep "closing the session") ;;
     emit (EvCloseSession isCompleted) ;;
     external (closeSession w isCompleted)) ;;
  if showOK then
    let text :=
      if negb (js_strict_eq message JUndefined) then message
      else JStr "Thank you for your patience. Goodbye!" in
    emit (EvDialogMessage text)
  else
    emit EvCloseDialog ;;
    onTerminate closeWindow isCompleted.

(** [async quit({closeWindow, isCompleted, message, showOK})].  With
    [showOK] the closure [onTerminate] is handed to the dialog and runs
    when the participant presses OK, after [quit] has returned. *)
Definition quit (closeWindow isCompleted : bool) (message : JsVal)
  (showOK : bool) : M unit :=
  experiment ← gets _experiment;
  match experiment with
  | None => throw JTypeError
  | Some _ =>
      modify (with_experiment
                (Some {| experimentEnded := true;
                         isCompleted := isCompleted |})) ;;
      modify (with_status Status.STOPPED) ;;
      environment ← getEnvironment;
      let isServerEnv := js_strict_eq environment Environment.SERVER in
      try_catch (quit_body closeWindow isCompleted message showOK isServerEnv)
        (fun error =>
           modify (with_status Status.ERROR) ;;
           throw (with_error "when terminating the experiment"
                    "PsychoJS.quit" error))
  end.

(** The [unload] listener that [start] registers. *)
Definition unload_listener : M unit :=
  sessionStatus ← config_read ["session"; "status"];
  when (js_strict_eq sessionStatus (JStr "OPEN"))
    (stop_upload_timer ;;
     saveIncomplete ← config_read ["experiment"; "saveIncompleteResults"];
     saveResults ← gets _saveResults;
     when (js_truthy saveIncomplete && saveResults)
       (delete_lastUploadTimestamp ;;
        emit EvExperimentSaveSync) ;;
     emit EvCloseSessionSync) ;;
  window ← gets _window;
  when window (emit EvWindowClose).

(** The part of [start] that runs on the server only. *)
Definition start_on_server (surveyId : JsVal) : M unit :=
  hasPilotToken ← serverMsg_has "__pilotToken";
  pilotToken ← (if hasPilotToken
                then v ← serverMsg_get "__pilotToken";
                     ret [("pilotToken", v)]
                else ret []);
  let hasSurveyId := negb (js_strict_eq surveyId JUndefined) in
  let params :=
    JObj (pilotToken ++ (if hasSurveyId then [("surveyId", surveyId)] else []))
  in
  when hasSurveyId (modify (with_surveyId surveyId)) ;;
  emit (EvOpenSession params) ;;
  external (openSession w params) ;;
  modify (with_beforeunloadCallback true) ;;
  emit EvAddBeforeUnloadListener ;;
  emit EvAddUnloadListener ;;
  saveResults ← gets _saveResults;
  armed ← (if saveResults
           then period ← config_read ["experiment"; "resultsUpload"; "period"];
                ret (js_gt_zero period)
           else ret false);
  when armed
    (period ← config_read ["experiment"; "resultsUpload"; "period"];
     emit (EvSetInterval (js_times period (60 * 1000))) ;;
     config_update ["experiment"; "resultsUpload"]
       (fun c => js_set c "intervalId" (JNum (setInterval_id w)))).

(** [start], the statements of the [try] block after the call of
    [_configure]. *)
Definition start_after_configure (surveyId : JsVal) : M unit :=
  collectIP ← gets _collectIP;
  (if collectIP then
     emit EvGetParticipantIPInfo ;;
     modify (with_IP (JObj []))
   else
     modify (with_IP
       (JObj [("city", JStr "X"); ("country", JStr "X");
              ("hostname", JStr "X"); ("IP", JStr "X");
              ("location", JStr "X"); ("region", JStr "X")]))) ;;
  emit EvNewExperimentHandler ;;
  modify (with_experiment
            (Some {| experimentEnded := false; isCompleted := false |})) ;;
  environment ← getEnvironment;
  when (js_strict_eq environment Environment.SERVER)
    (start_on_server surveyId) ;;
  emit EvPrepareResources ;;
  checkWebGL ← gets _checkWebGLSupport;
  if checkWebGL && negb (Window_checkWebGLSupport w) then
    emit (EvAddData "hardware_acceleration" "NOT SUPPORTED") ;;
    emit EvNextEntry ;;
    emit EvDialogWebGLWarning
  else
    autoStart ← gets _autoStartScheduler;
    when autoStart
      (modify (with_status Status.STARTED) ;;
       emit EvSchedulerStart).

(** The body of the [try] block of [start]. *)
Definition start_body (configURL expName : string) (surveyId : JsVal)
  : M unit :=
  _configure configURL expName ;;
  start_after_configure surveyId.

(** [async start({configURL, expName, surveyId, ...})] *)
Definition start (configURL expName : string) (surveyId : JsVal) : M unit :=
  try_catch (start_body configURL expName surveyId)
    (fun error =>
       modify (with_status Status.ERROR) ;;
       throw (with_error "when starting the experiment"
                "PsychoJS.start" error)).

End Methods.

(* ================================================================== *)
(** ** Notions used in the statements *)
(* ================================================================== *)

(** The essential fields in the order [_configure] tests them: the path
    of the enclosing block, the key, and the message thrown when the key
    is absent. *)
Definition essential_fields : list (list string * string * string) :=
  [ ([], "experiment", "missing experiment block in configuration");
    (["experiment"], "name",
     "missing name in experiment block in configuration");
    (["experiment"], "fullpath",
     "missing fullpath in experiment block in configuration");
    ([], "pavlovia", "missing pavlovia block in configuration");
    (["pavlovia"], "URL", "missing URL in pavlovia block in configuration");
    ([], "gitlab", "missing gitlab block in configuration");
    (["gitlab"], "projectId",
     "missing projectId in gitlab block in configuration") ].

(** [key in cfg.path], the test applied to one essential field. *)
Definition field_test (cfg : JsVal) (path : list string) (key : string)
  : Outcome bool :=
  match js_get_path cfg path with
  | Ret c => js_in key c
  | Throw e => Throw e
  end.

(** A field is missing when its test evaluates to [false]. *)
Definition field_missing (cfg : JsVal) (f : list string * string * string)
  : Prop :=
  field_test cfg f.1.1 f.1.2 = Ret false.

(** The value thrown by the first test, in order, that does not evaluate
    to [true]: the message of the field when the key is absent, the
    [TypeError] when the enclosing block does not admit [in]. *)
Fixpoint first_failure (cfg : JsVal)
  (fields : list (list string * string * string)) : option JsVal :=
  match fields with
  | [] => None
  | (path, key, msg) :: fields' =>
      match field_test cfg path key with
      | Ret true => first_failure cfg fields'
      | Ret false => Some (JStr msg)
      | Throw e => Some e
      end
  end.

(** The configuration after the update for legacy experiments. *)
Definition legacy_update (cfg : JsVal) : JsVal :=
  match cfg with
  | JObj props =>
      if assoc_has "psychoJsManager" props then
        JObj (assoc_set "pavlovia" (JObj [("URL", JStr "https://pavlovia.org")])
                (assoc_del "psychoJsManager" props))
      else cfg
  | _ => cfg
  end.

(** The upload options [_configure] installs. *)
Definition initial_resultsUpload : JsVal :=
  JObj [("intervalId", JNum (-1)); ("period", JNum (-1))].

(** The double-underscore parameters of a query, later entries
    overriding earlier ones with the same key. *)
Definition server_parameters (params : list (string * string))
  : gmap string string :=
  foldl (fun m '(key, value) =>
           if js_indexOf key "__" =? 0 then <[key := value]> m else m)
        ∅ params.

(** The value of the last entry of a query with the given key. *)
Fixpoint last_value (key : string) (params : list (string * string))
  : option string :=
  match params with
  | [] => None
  | (k, v) :: params' =>
      match last_value key params' with
      | Some v' => Some v'
      | None => if String.eqb key k then Some v else None
      end
  end.

(** No periodic upload is configured: the timer identifier is [-1] and
    the period is a number that is not positive. *)
Definition upload_off (cfg : JsVal) : Prop :=
  js_get_path cfg ["experiment"; "resultsUpload"; "intervalId"]
    = Ret (JNum (-1)) /\
  exists p, js_get_path cfg ["experiment"; "resultsUpload"; "period"]
              = Ret (JNum p) /\ p <= 0.

(** The events that arm or clear the upload timer. *)
Definition is_timer_event (e : Event) : bool :=
  match e with
  | EvSetInterval _ | EvClearInterval _ => true
  | _ => false
  end.

(** The events that save results or flush logs. *)
Definition is_output_event (e : Event) : bool :=
  match e with
  | EvExperimentSave | EvLoggerFlush | EvExperimentSaveSync => true
  | _ => false
  end.

(** A world whose collaborators all succeed and leave the configuration
    alone, parameterised by what [_configure] reads. *)
Definition quiet_world (href : string) (params : list (string * string))
  (response : Outcome JsVal) : World :=
  {| location_href := href;
     getUrlParameters := params;
     getConfiguration := fun _ => response;
     openSession := fun _ c => (Ret tt, c);
     experiment_save := fun c => (Ret tt, c);
     logger_flush := fun c => (Ret tt, c);
     closeSession := fun _ c => (Ret tt, c);
     Window_checkWebGLSupport := true;
     setInterval_id := 1 |}.

(** The same world with another answer to [getConfiguration]. *)
Definition with_getConfiguration (w : World) (response : Outcome JsVal)
  : World :=
  {| location_href := location_href w;
     getUrlParameters := getUrlParameters w;
     getConfiguration := fun _ => response;
     openSession := openSession w;
     experiment_save := experiment_save w;
     logger_flush := logger_flush w;
     closeSession := closeSession w;
     Window_checkWebGLSupport := Window_checkWebGLSupport w;
     setInterval_id := setInterval_id w |}.

(** The same world whose [closeSession] fails with [e]. *)
Definition with_failing_closeSession (w : World) (e : JsVal) : World :=
  {| location_href := location_href w;
     getUrlParameters := getUrlParameters w;
     getConfiguration := getConfiguration w;
     openSession := openSession w;
     experiment_save := experiment_save w;
     logger_flush := logger_flush w;
     closeSession := fun _ c => (Throw e, c);
     Window_checkWebGLSupport := Window_checkWebGLSupport w;
     setInterval_id := setInterval_id w |}.

(** Sample configurations. *)
Definition modern_config : JsVal :=
  JObj [("experiment", JObj [("name", JStr "stroop");
                             ("fullpath", JStr "lab/stroop")]);
        ("pavlovia", JObj [("URL", JStr "https://pavlovia.org")]);
        ("gitlab", JObj [("projectId", JNum 42)])].

Definition legacy_config : JsVal :=
  JObj [("psychoJsManager", JObj [("URL", JStr "https://pavlovia.org/server")]);
        ("experiment", JObj [("name", JStr "stroop");
                             ("fullpath", JStr "lab/stroop")]);
        ("gitlab", JObj [("projectId", JNum 42)])].

Definition server_url : string := "https://run.pavlovia.org/lab/stroop/".

Definition local_url : string := "http://localhost:8080/index.html".

(** A configuration that carries both the legacy block and a [pavlovia]
    block of its own. *)
Definition mixed_config : JsVal :=
  JObj [("psychoJsManager", JObj [("URL", JStr "https://pavlovia.org/server")]);
        ("experiment", JObj [("name", JStr "stroop");
                             ("fullpath", JStr "lab/stroop")]);
        ("pavlovia", JObj [("URL", JStr "https://example.org")]);
        ("gitlab", JObj [("projectId", JNum 42)])].

(** A configuration whose URL and project identifier are present and
    empty. *)
Definition empty_values_config : JsVal :=
  JObj [("experiment", JObj [("name", JStr "stroop");
                             ("fullpath", JStr "lab/stroop")]);
        ("pavlovia", JObj [("URL", JStr "")]);
        ("gitlab", JObj [("projectId", JStr "")])].

(** A configuration without [experiment.name]. *)
Definition nameless_config : JsVal :=
  JObj [("experiment", JObj [("fullpath", JStr "lab/stroop")]);
        ("pavlovia", JObj [("URL", JStr "https://pavlovia.org")]);
        ("gitlab", JObj [("projectId", JNum 42)])].

(** A run on the server whose configuration file holds [cfg]. *)
Definition server_world (cfg : JsVal) : World :=
  quiet_world server_url [] (Ret (JObj [("config", cfg)])).

(** A run on the server launched with a pilot token, a plain parameter
    and the no-output flag. *)
Definition smoke_test_world : World :=
  quiet_world server_url
    [("__pilotToken", "abc"); ("participant", "7"); ("__noOutput", "");
     ("__pilotToken", "xyz")]
    (Ret (JObj [("config", modern_config)])).

(** [openSession] writing the upload period [p] into the configuration. *)
Definition set_period (p : Z) (c : JsVal) : JsVal :=
  match js_update_path c ["experiment"; "resultsUpload"]
          (fun r => js_set r "period" (JNum p)) with
  | Ret c' => c'
  | Throw _ => c
  end.

Definition period_world (p : Z) : World :=
  {| location_href := server_url;
     getUrlParameters := [];
     getConfiguration := fun _ => Ret (JObj [("config", modern_config)]);
     openSession := fun _ c => (Ret tt, set_period p c);
     experiment_save := fun c => (Ret tt, c);
     logger_flush := fun c => (Ret tt, c);
     closeSession := fun _ c => (Ret tt, c);
     Window_checkWebGLSupport := true;
     setInterval_id := 1 |}.

(** A freshly constructed instance with the default options. *)
Definition fresh : PsychoJS := new_PsychoJS default_options.

(** A run on the server in which closing the session fails. *)
Definition failing_close_world : World :=
  with_failing_closeSession (server_world modern_config)
    (JStr "network error").

(** A run from a local web server. *)
Definition local_world : World :=
  quiet_world local_url [] (Throw (JStr "not found")).

(** The fresh instance after [start] with the default arguments. *)
Definition started (w : World) : PsychoJS :=
  (start w "config.json" "stroop" JUndefined fresh).2.

(** *** Auxiliary notions of the proofs *)

(** Keys that are not array indices: they do not start with a digit. *)
Definition named_key (k : string) : bool :=
  match k with
  | String c _ =>
      negb (existsb (Ascii.eqb c) (list_ascii_of_string "0123456789"))
  | EmptyString => true
  end.

(** The configuration [props] once [finish_configuration] has installed
    the upload options in its experiment block [eprops]. *)
Definition configured_config (props eprops : list (string * JsVal)) : JsVal :=
  JObj (assoc_set "experiment"
          (JObj (assoc_set "resultsUpload" initial_resultsUpload eprops))
          props).

(** [this._serverMsg.has("__noOutput")] *)
Definition noOutput (m : gmap string string) : bool :=
  bool_decide (is_Some (m !! "__noOutput")).

(** The instance [t] after a successful configuration that ends with the
    configuration [cfg]. *)
Definition configured (w : World) (cfg : JsVal) (t : PsychoJS) : PsychoJS :=
  let m := server_parameters (getUrlParameters w) in
  with_status Status.CONFIGURED
    ((if noOutput m then with_saveResults false else id)
       (with_serverMsg (Some m) (with_config cfg t))).

Definition configure_context : string :=
  "when configuring PsychoJS for the experiment".

Definition configure_origin : string := "PsychoJS.configure".

(** [I] is kept by the method [m], whether it returns or throws. *)
Definition inv {A : Type} (I : PsychoJS -> Prop) (m : M A) : Prop :=
  forall t, I t -> I (m t).2.

(** From a state in [I], the method [m] ends in an outcome and a state
    related by [Q]. *)
Definition post {A : Type} (I : PsychoJS -> Prop)
  (Q : Outcome A -> PsychoJS -> Prop) (m : M A) : Prop :=
  forall t, I t -> Q (m t).1 (m t).2.

(** The message board is [m]. *)
Definition board_is (m : option (gmap string string)) (t : PsychoJS) : Prop :=
  _serverMsg t = m.

(** Results are not to be saved, and the output events so far are
    [evs]. *)
Definition output_off (evs : list Event) (t : PsychoJS) : Prop :=
  _saveResults t = false /\ List.filter is_output_event (events t) = evs.

(** The collaborators never configure a periodic upload: they leave a
    configuration without periodic upload in that state. *)
Definition upload_never_enabled (w : World) : Prop :=
  forall c, upload_off c ->
    (forall params, upload_off (openSession w params c).2) /\
    upload_off (experiment_save w c).2 /\
    upload_off (logger_flush w c).2 /\
    (forall isCompleted, upload_off (closeSession w isCompleted c).2).

(** No periodic upload is configured, and the timer events so far are
    [evs]. *)
Definition timer_off (evs : list Event) (t : PsychoJS) : Prop :=
  upload_off (_config t) /\ List.filter is_timer_event (events t) = evs.

(** The awaited calls of [closeSession]. *)
Definition is_closeSession_event (e : Event) : bool :=
  match e with
  | EvCloseSession _ => true
  | _ => false
  end.

(** The calls of [closeSession] so far are [evs]. *)
Definition close_count (evs : list Event) (t : PsychoJS) : Prop :=
  List.filter is_closeSession_event (events t) = evs.

(** The status is [v]. *)
Definition status_is (v : JsVal) (t : PsychoJS) : Prop :=
  _status t = v.

(* ================================================================== *)
(** ** The remaining methods *)
(* ================================================================== *)

(** The table [PsychoJS.Status] as the object that the [for ... in] loop
    of [_makeStatusTopLevel] enumerates. *)
Definition Status_table : list (string * JsVal) :=
  [("CONFIGURED", Status.CONFIGURED);
   ("CONFIGURING", Status.CONFIGURING);
   ("ERROR", Status.ERROR);
   ("FINISHED", Status.FINISHED);
   ("NOT_CONFIGURED", Status.NOT_CONFIGURED);
   ("NOT_STARTED", Status.NOT_STARTED);
   ("PAUSED", Status.PAUSED);
   ("STARTED", Status.STARTED);
   ("STOPPED", Status.STOPPED)].

(** The keys a [for (const k in o)] loop visits, each with the value
    [o[k]] read in the loop body: the own keys of an object, the indices
    of an array or of a string, nothing for the other values ([null] and
    [undefined] included).  The order of the visit is not modelled: it
    does not change what the loops below leave behind, every key being
    assigned the value read under it. *)
Definition for_in (o : JsVal) : list (string * JsVal) :=
  match o with
  | JObj props =>
      map (fun k => (k, default JUndefined (assoc_get k props)))
          (map fst props)
  | JArr elems => combine (map index_key (seq 0 (length elems))) elems
  | JStr s =>
      combine (map index_key (seq 0 (String.length s)))
              (map (fun c => JStr (String c EmptyString))
                   (list_ascii_of_string s))
  | _ => []
  end.

(** [window[k] = v], for each visited pair in turn.  The properties of
    [window] are a finite map of plain data properties; the accessors
    of the browser's [window] ([location], [name], ...) are not
    modelled. *)
Definition assign_all (visited : list (string * JsVal))
  (window : gmap string JsVal) : gmap string JsVal :=
  foldl (fun g '(k, v) => <[k := v]> g) window visited.

(** [_makeStatusTopLevel()] *)
Definition _makeStatusTopLevel (window : gmap string JsVal)
  : gmap string JsVal :=
  assign_all (for_in (JObj Status_table)) window.


(** The conversion to a string of a value interpolated in a template
    literal.  A symbol cannot be converted.  Arrays and error objects are
    not modelled (they read as plain objects); the class interpolates a
    property of an object literal of its own. *)
Definition js_template (v : JsVal) : Outcome string :=
  match v with
  | JUndefined => Ret "undefined"
  | JNull => Ret "null"
  | JBool true => Ret "true"
  | JBool false => Ret "false"
  | JNum n => Ret (NilZero.string_of_int (Z.to_int n))
  | JStr s => Ret s
  | JSym _ => Throw JTypeError
  | _ => Ret "[object Object]"
  end.

(** What [await fetch(url, ...)] resolves to: the HTTP status and the
    outcome of [await getResponse.json()]. *)
Record FetchResponse : Type := {
  response_status : Z;
  response_json : Outcome JsVal
}.

(** The body of the [try] block of [_getParticipantIPInfo]; [response]
    is the object literal [{context, origin}] of the method. *)
Definition _getParticipantIPInfo_body (response : JsVal)
  (fetched : Outcome FetchResponse) : M unit :=
  getResponse ← lift fetched;
  when (negb (response_status getResponse =? 200))
    (statusText ← lift (js_get response "statusText");
     text ← lift (js_template statusText);
     throw (JStr ("unable to obtain the IP of the participant: " ++ text))) ;;
  geoData ← lift (response_json getResponse);
  country ← lift (js_get geoData "geoplugin_countryName");
  IP ← lift (js_get geoData "geoplugin_request");
  latitude ← lift (js_get geoData "geoplugin_latitude");
  longitude ← lift (js_get geoData "geoplugin_longitude");
  modify (with_IP (JObj [("country", country); ("IP", IP);
                         ("latitude", latitude); ("longitude", longitude)])).

(** [async _getParticipantIPInfo()], run to completion; [fetched] is the
    outcome of the request to the geolocation service. *)
Definition _getParticipantIPInfo (fetched : Outcome FetchResponse) : M unit :=
  let response :=
    JObj [("context",
           JStr "when getting the IP information of the participant");
          ("origin", JStr "PsychoJS._getParticipantIPInfo")] in
  modify (with_IP (JObj [])) ;;
  try_catch (_getParticipantIPInfo_body response fetched)
    (fun error =>
       throw (with_error "when getting the IP information of the participant"
                "PsychoJS._getParticipantIPInfo" error)).

(** *** Notions used in the further statements *)

(** The outcome and the final state of [m] from [t] satisfy [Q]. *)
Definition wp {A : Type} (m : M A) (Q : Outcome A -> PsychoJS -> Prop)
  (t : PsychoJS) : Prop :=
  Q (m t).1 (m t).2.

Arguments wp : simpl never.

(** The parameters [start] passes to [openSession]. *)
Definition session_params (board : gmap string string) (surveyId : JsVal)
  : JsVal :=
  JObj (match board !! "__pilotToken" with
        | Some token => [("pilotToken", JStr token)]
        | None => []
        end ++
        (if js_strict_eq surveyId JUndefined then []
         else [("surveyId", surveyId)])).

(** The events with which [start] ends, by the options of the
    constructor and the support of WebGL. *)
Definition start_final_events (w : World) (t : PsychoJS) : list Event :=
  if _checkWebGLSupport t && negb (Window_checkWebGLSupport w) then
    [EvAddData "hardware_acceleration" "NOT SUPPORTED"; EvNextEntry;
     EvDialogWebGLWarning]
  else if _autoStartScheduler t then [EvSchedulerStart]
  else [].

(** The status in which a [start] that returns leaves the instance. *)
Definition start_final_status (w : World) (t : PsychoJS) : JsVal :=
  if _checkWebGLSupport t && negb (Window_checkWebGLSupport w) then
    Status.CONFIGURED
  else if _autoStartScheduler t then Status.STARTED
  else Status.CONFIGURED.

(** The events with which [start] begins after [_configure]. *)
Definition start_first_events (t : PsychoJS) : list Event :=
  (if _collectIP t then [EvGetParticipantIPInfo] else [])
  ++ [EvNewExperimentHandler].

(** The constructor options kept in the instance. *)
Definition options_of (t : PsychoJS) : list string * bool * bool * bool :=
  (_hosts t, _collectIP t, _autoStartScheduler t, _checkWebGLSupport t).
(** The instance is configured and has the options of [t]. *)
Definition configured_like (t t' : PsychoJS) : Prop :=
  _status t' = Status.CONFIGURED /\ options_of t' = options_of t.

(** The upload options of the configuration are an object in which the
    key [key] holds [v]. *)
Definition upload_option (key : string) (v : JsVal) (c : JsVal) : Prop :=
  exists rprops,
    js_get_path c ["experiment"; "resultsUpload"] = Ret (JObj rprops) /\
    assoc_get key rprops = Some v.

(** The timer events so far are [evs]. *)
Definition timer_events (evs : list Event) (t : PsychoJS) : Prop :=
  List.filter is_timer_event (events t) = evs.

(** The output events so far are [evs]. *)
Definition output_events (evs : list Event) (t : PsychoJS) : Prop :=
  List.filter is_output_event (events t) = evs.

(** The flag for incomplete results reads [v], and the output events so
    far are [evs]. *)
Definition incomplete_flag (v : JsVal) (evs : list Event) (t : PsychoJS)
  : Prop :=
  js_get_path (_config t) ["experiment"; "saveIncompleteResults"] = Ret v /\
  List.filter is_output_event (events t) = evs.

(** No window has been opened. *)
Definition no_window (t : PsychoJS) : Prop := _window t = false.


(** A run on the server whose session cannot be opened. *)
Definition failing_session_world : World :=
  {| location_href := server_url;
     getUrlParameters := [];
     getConfiguration := fun _ => Ret (JObj [("config", modern_config)]);
     openSession := fun _ c => (Throw (JStr "network error"), c);
     experiment_save := fun c => (Ret tt, c);
     logger_flush := fun c => (Ret tt, c);
     closeSession := fun _ c => (Ret tt, c);
     Window_checkWebGLSupport := true;
     setInterval_id := 1 |}.


(** An answer of the geolocation service that is not a success. *)
Definition not_found_response : FetchResponse :=
  {| response_status := 404; response_json := Throw JTypeError |}.

(* ================================================================== *)
(** ** Properties *)
(* ================================================================== *)

(** *** Property lists, array keys and [indexOf] *)

(** Reads after writes and deletions. *)
Lemma assoc_get_set_eq k v l : assoc_get k (assoc_set k v l) = Some v.
Proof.
  induction l as [|[k' v'] l IH]; simpl.
  - by rewrite String.eqb_refl.
  - destruct (String.eqb k k') eqn:E; simpl; rewrite E; auto.
Qed.

Lemma assoc_get_set_ne k k' v l :
  k <> k' -> assoc_get k (assoc_set k' v l) = assoc_get k l.
Proof.
  intros Hne. induction l as [|[k2 v2] l IH]; simpl.
  - apply String.eqb_neq in Hne. by rewrite Hne.
  - destruct (String.eqb k' k2) eqn:E; simpl.
    + apply String.eqb_eq in E. subst k2. apply String.eqb_neq in Hne.
      by rewrite Hne.
    + by rewrite IH.
Qed.

Lemma assoc_get_del_eq k l : assoc_get k (assoc_del k l) = None.
Proof.
  induction l as [|[k' v'] l IH]; simpl; auto.
  destruct (String.eqb k k') eqn:E; simpl; auto. by rewrite E.
Qed.

Lemma assoc_get_del_ne k k' l :
  k <> k' -> assoc_get k (assoc_del k' l) = assoc_get k l.
Proof.
  intros Hne. induction l as [|[k2 v2] l IH]; simpl; auto.
  destruct (String.eqb k' k2) eqn:E; simpl.
  - apply String.eqb_eq in E. subst k2. apply String.eqb_neq in Hne.
    by rewrite Hne.
  - by rewrite IH.
Qed.

(** An array index starts with a digit. *)
Lemma index_key_not_letter i : named_key (index_key i) = false.
Proof.
  unfold index_key, NilZero.string_of_uint.
  destruct (Nat.to_uint i); reflexivity.
Qed.

Lemma assoc_get_combine_None k ks (vs : list JsVal) :
  Forall (fun k' => k <> k') ks -> assoc_get k (combine ks vs) = None.
Proof.
  intros H. revert vs. induction H as [|k' ks Hk _ IH]; intros [|v vs]; simpl; auto.
  apply String.eqb_neq in Hk. rewrite Hk. apply IH.
Qed.

(** An array owns no key other than its indices and [length]. *)
Lemma array_props_letter k elems :
  named_key k = true -> k <> "length" ->
  assoc_get k (array_props elems) = None.
Proof.
  intros Hk Hlen. unfold array_props.
  assert (Hc : assoc_get k (combine (map index_key (seq 0 (length elems))) elems) = None).
  { apply assoc_get_combine_None. apply Forall_forall. intros k' Hin.
    apply list_elem_of_In, in_map_iff in Hin. destruct Hin as (i & <- & _).
    intros ->. rewrite index_key_not_letter in Hk. discriminate. }
  revert Hc. generalize (combine (map index_key (seq 0 (length elems))) elems).
  induction l as [|[k' v'] l IH]; simpl.
  - intros _. apply String.eqb_neq in Hlen. by rewrite Hlen.
  - destruct (String.eqb k k'); [discriminate | auto].
Qed.

(** [s.indexOf(pat) === 0] says that [pat] is a prefix of [s]. *)
Lemma js_indexOf_prefix s pat :
  (js_indexOf s pat =? 0) = String.prefix pat s.
Proof.
  unfold js_indexOf. destruct s as [|c s]; simpl.
  - destruct pat; reflexivity.
  - destruct pat as [|c' pat']; [reflexivity|].
    cbn [String.prefix].
    destruct (Ascii.ascii_dec c' c) as [->|Hne].
    + destruct (String.prefix pat' s); [reflexivity|].
      destruct (String.index 0 (String c pat') s); reflexivity.
    + destruct (String.index 0 (String c' pat') s); reflexivity.
Qed.

(** *** The blocks of [_configure] *)

(** Unfolding of the monad. *)
Ltac run := cbv beta iota delta [bind ret lift throw gets modify emit when
  try_catch config_has config_read config_update external require_in]; simpl.

Section Blocks.
Context (w : World).

(** One test: it returns, throws the message, or throws the [TypeError] of
    the test. *)
Lemma require_in_spec k path msg t :
  require_in k path msg t =
  (match field_test (_config t) path k with
   | Ret true => Ret tt
   | Ret false => Throw (JStr msg)
   | Throw e => Throw e
   end, t).
Proof.
  unfold field_test. run.
  destruct (js_get_path (_config t) path) as [c|e]; simpl; [|reflexivity].
  destruct (js_in k c) as [[|]|e]; reflexivity.
Qed.

(** The seven tests throw the value of the first failure in the table
    [essential_fields], and leave the instance as it is. *)
Lemma check_essential_blocks_spec t :
  check_essential_blocks t =
  (match first_failure (_config t) essential_fields with
   | Some e => Throw e
   | None => Ret tt
   end, t).
Proof.
  unfold check_essential_blocks, first_failure, essential_fields, bind.
  repeat (rewrite require_in_spec;
          match goal with
          | |- context [field_test ?c ?p ?k] =>
              destruct (field_test c p k) as [[|]|?]; try reflexivity
          end).
Qed.

(** Reading the configuration of the server installs its legacy update. *)
Lemma read_server_configuration_ok configURL resp cfg b t :
  getConfiguration w configURL = Ret resp ->
  js_get resp "config" = Ret cfg ->
  js_in "psychoJsManager" cfg = Ret b ->
  read_server_configuration w configURL t =
  (Ret tt, with_config (legacy_update cfg)
             (with_event (EvGetConfiguration configURL) t)).
Proof.
  intros Hresp Hcfg Hin. unfold read_server_configuration. run.
  rewrite Hresp. simpl. rewrite Hcfg. simpl. rewrite Hin. simpl.
  destruct cfg; simpl in Hin; try discriminate.
  - injection Hin as <-. unfold assoc_has. rewrite array_props_letter; done.
  - injection Hin as <-. simpl. destruct (assoc_has _ props); reflexivity.
Qed.

(** A configuration that does not admit [in] stops at the legacy test. *)
Lemma read_server_configuration_not_object configURL resp cfg e t :
  getConfiguration w configURL = Ret resp ->
  js_get resp "config" = Ret cfg ->
  js_in "psychoJsManager" cfg = Throw e ->
  read_server_configuration w configURL t =
  (Throw e, with_config cfg (with_event (EvGetConfiguration configURL) t)).
Proof.
  intros Hresp Hcfg Hin. unfold read_server_configuration. run.
  rewrite Hresp. simpl. rewrite Hcfg. simpl. by rewrite Hin.
Qed.

(** The loop over the query parameters. *)
Lemma forEach_server_parameters params m t :
  _serverMsg t = Some m ->
  forEach params
    (fun '(key, value) =>
       when (js_indexOf key "__" =? 0) (serverMsg_set key value)) t =
  (Ret tt,
   with_serverMsg
     (Some (foldl (fun m '(key, value) =>
                     if js_indexOf key "__" =? 0 then <[key := value]> m else m)
                  m params)) t).
Proof.
  revert m t. induction params as [|[k v] params IH]; intros m t Hm; simpl.
  - unfold ret. f_equal. destruct t; simpl in *; by subst.
  - unfold bind, when. destruct (js_indexOf k "__" =? 0).
    + unfold serverMsg_set. rewrite Hm. rewrite (IH (<[k:=v]> m)); done.
    + unfold ret. by rewrite (IH m).
Qed.

End Blocks.

Section Configure.
Context (w : World).

(** A value that owns a named key is an object. *)
Lemma js_in_true_object k v :
  named_key k = true -> k <> "length" ->
  js_in k v = Ret true -> exists props, v = JObj props /\ is_Some (assoc_get k props).
Proof.
  intros Hk Hl Hin. destruct v; simpl in Hin; try discriminate.
  - unfold assoc_has in Hin. rewrite array_props_letter in Hin; done.
  - exists props. split; [done|]. unfold assoc_has in Hin.
    destruct (assoc_get k props); [eauto | discriminate].
Qed.

(** A configuration that passes the tests is an object whose experiment
    block is an object. *)
Lemma valid_config_shape cfg :
  first_failure cfg essential_fields = None ->
  exists props eprops,
    cfg = JObj props /\ assoc_get "experiment" props = Some (JObj eprops).
Proof.
  unfold essential_fields. cbn [first_failure].
  destruct (field_test cfg [] "experiment") as [[|]|] eqn:E1; try discriminate.
  destruct (field_test cfg ["experiment"] "name") as [[|]|] eqn:E2;
    try discriminate.
  intros _. unfold field_test in E1, E2. simpl in E1.
  apply js_in_true_object in E1 as (props & -> & [v Hv]); [|done..].
  simpl in E2. rewrite Hv in E2. simpl in E2.
  apply js_in_true_object in E2 as (eprops & -> & _); [|done..].
  eauto.
Qed.

(** The end of [_configure] cannot fail on such a configuration. *)
Lemma finish_configuration_spec props eprops t :
  _config t = JObj props ->
  assoc_get "experiment" props = Some (JObj eprops) ->
  finish_configuration w t =
  (Ret tt, configured w (configured_config props eprops) t).
Proof.
  intros Hc He. unfold finish_configuration. run.
  rewrite Hc. simpl. rewrite He. simpl.
  rewrite (forEach_server_parameters _ ∅); [|reflexivity].
  unfold serverMsg_has. simpl.
  unfold configured, noOutput, server_parameters, configured_config,
    initial_resultsUpload.
  destruct (bool_decide _); reflexivity.
Qed.

Lemma legacy_update_in cfg e :
  js_in "psychoJsManager" cfg = Throw e -> legacy_update cfg = cfg /\
  field_test cfg [] "experiment" = Throw e.
Proof.
  destruct cfg; simpl; try discriminate; intros [= <-]; done.
Qed.

(** [_configure] on an approved host, when a test fails. *)
Lemma configure_server_fail configURL name resp cfg e t :
  isHost w (_hosts t) = true ->
  getConfiguration w configURL = Ret resp ->
  js_get resp "config" = Ret cfg ->
  first_failure (legacy_update cfg) essential_fields = Some e ->
  _configure w configURL name t =
  (Throw (with_error configure_context configure_origin e),
   with_config (legacy_update cfg)
     (with_event (EvGetConfiguration configURL)
        (with_status Status.CONFIGURING t))).
Proof.
  intros Hhost Hresp Hcfg Hfail. unfold _configure, _configure_body. run.
  cbn [_hosts with_status]. rewrite Hhost.
  destruct (js_in "psychoJsManager" cfg) as [b|e'] eqn:Hin.
  - rewrite (read_server_configuration_ok w _ _ _ _ _ Hresp Hcfg Hin).
    rewrite check_essential_blocks_spec. cbn [_config with_config].
    rewrite Hfail. reflexivity.
  - rewrite (read_server_configuration_not_object w _ _ _ _ _ Hresp Hcfg Hin).
    apply legacy_update_in in Hin as [Heq Hexp].
    rewrite Heq in Hfail |- *. unfold essential_fields in Hfail.
    cbn [first_failure] in Hfail. rewrite Hexp in Hfail.
    by injection Hfail as ->.
Qed.

(** [_configure] on an approved host, when every test passes. *)
Lemma configure_server_ok configURL name resp cfg t :
  isHost w (_hosts t) = true ->
  getConfiguration w configURL = Ret resp ->
  js_get resp "config" = Ret cfg ->
  first_failure (legacy_update cfg) essential_fields = None ->
  exists props eprops,
    legacy_update cfg = JObj props /\
    assoc_get "experiment" props = Some (JObj eprops) /\
    _configure w configURL name t =
    (Ret tt,
     configured w
       (configured_config (assoc_set "environment" Environment.SERVER props)
          eprops)
       (with_event (EvGetConfiguration configURL)
          (with_status Status.CONFIGURING t))).
Proof.
  intros Hhost Hresp Hcfg Hok.
  destruct (valid_config_shape _ Hok) as (props & eprops & Hshape & Hexp).
  exists props, eprops. split; [done|]. split; [done|].
  assert (Hin : exists b, js_in "psychoJsManager" cfg = Ret b).
  { destruct cfg; simpl in Hshape; try discriminate; simpl; eauto. }
  destruct Hin as [b Hin].
  unfold _configure, _configure_body. run.
  cbn [_hosts with_status]. rewrite Hhost.
  rewrite (read_server_configuration_ok w _ _ _ _ _ Hresp Hcfg Hin).
  rewrite check_essential_blocks_spec. cbn [_config with_config].
  rewrite Hok, Hshape. cbn [js_update_path js_set].
  erewrite finish_configuration_spec; [reflexivity | reflexivity |].
  rewrite assoc_get_set_ne; done.
Qed.

(** [_configure] off the approved hosts. *)
Lemma configure_local configURL name t :
  isHost w (_hosts t) = false ->
  _configure w configURL name t =
  (Ret tt,
   configured w
     (JObj [("environment", Environment.LOCAL);
            ("experiment",
             JObj [("keys", JArr []);
                   ("name", JStr name);
                   ("saveFormat", SaveFormat.CSV);
                   ("saveIncompleteResults", JBool true);
                   ("resultsUpload", initial_resultsUpload)])])
     (with_status Status.CONFIGURING t)).
Proof.
  intros Hhost. unfold _configure, _configure_body. run.
  cbn [_hosts with_status]. rewrite Hhost.
  unfold local_configuration.
  erewrite finish_configuration_spec;
    [ | reflexivity | cbn [with_config _config assoc_get String.eqb Ascii.eqb Bool.eqb]; reflexivity].
  reflexivity.
Qed.

End Configure.

(** *** Invariants of methods *)

Section Inv.
Context (I : PsychoJS -> Prop).

Lemma inv_ret {A} (a : A) : inv I (ret a).
Proof. intros t Ht. exact Ht. Qed.

Lemma inv_throw {A} e : inv I (@throw A e).
Proof. intros t Ht. exact Ht. Qed.

Lemma inv_lift {A} (o : Outcome A) : inv I (lift o).
Proof. intros t Ht. exact Ht. Qed.

Lemma inv_gets {A} (f : PsychoJS -> A) : inv I (gets f).
Proof. intros t Ht. exact Ht. Qed.

Lemma inv_modify f : (forall t, I t -> I (f t)) -> inv I (modify f).
Proof. intros Hf t Ht. apply Hf, Ht. Qed.

(** Sequencing keeps an invariant that both parts keep. *)
Lemma inv_bind {A B} (m : M A) (f : A -> M B) :
  inv I m -> (forall a, inv I (f a)) -> inv I (bind m f).
Proof.
  intros Hm Hf t Ht. unfold bind. specialize (Hm t Ht).
  destruct (m t) as [[a|e] t']; simpl in *; [by apply Hf | done].
Qed.

(** A bind whose continuation may rely on a fact about the value
    returned under the invariant. *)
Lemma inv_bind_val {A B} (R : A -> Prop) (m : M A) (f : A -> M B) :
  (forall t a, I t -> (m t).1 = Ret a -> R a) ->
  inv I m -> (forall a, R a -> inv I (f a)) -> inv I (bind m f).
Proof.
  intros HR Hm Hf t Ht. unfold bind. specialize (Hm t Ht).
  specialize (HR t). destruct (m t) as [[a|e] t']; simpl in *; [|done].
  apply Hf; auto.
Qed.

Lemma inv_try_catch {A} (m : M A) (h : JsVal -> M A) :
  inv I m -> (forall e, inv I (h e)) -> inv I (try_catch m h).
Proof.
  intros Hm Hh t Ht. unfold try_catch. specialize (Hm t Ht).
  destruct (m t) as [[a|e] t']; simpl in *; [done | by apply Hh].
Qed.

Lemma inv_when c m : inv I m -> inv I (when c m).
Proof. intros Hm. destruct c; [exact Hm | apply inv_ret]. Qed.

Lemma inv_config_read path : inv I (config_read path).
Proof. intros t Ht. exact Ht. Qed.

Lemma inv_config_has k path : inv I (config_has k path).
Proof.
  unfold config_has. apply inv_bind; [apply inv_config_read|].
  intros a. apply inv_lift.
Qed.

Lemma inv_serverMsg_has k : inv I (serverMsg_has k).
Proof. intros t Ht. unfold serverMsg_has. by destruct (_serverMsg t). Qed.

Lemma inv_serverMsg_get k : inv I (serverMsg_get k).
Proof. intros t Ht. unfold serverMsg_get. by destruct (_serverMsg t). Qed.

Lemma inv_config_update path f :
  (forall t c, I t -> js_update_path (_config t) path f = Ret c ->
               I (with_config c t)) ->
  inv I (config_update path f).
Proof.
  intros H t Ht. unfold config_update. specialize (H t).
  destruct (js_update_path (_config t) path f); simpl; auto.
Qed.

Lemma inv_external call :
  (forall t, I t -> I (with_config (call (_config t)).2 t)) ->
  inv I (external call).
Proof.
  intros H t Ht. unfold external. specialize (H t Ht).
  by destruct (call (_config t)).
Qed.

End Inv.

(** Structural steps of an invariant proof. *)
Ltac inv_step :=
  lazymatch goal with
  | |- inv _ (bind _ _) => apply inv_bind; [|intros ?]
  | |- inv _ (ret _) => apply inv_ret
  | |- inv _ (throw _) => apply inv_throw
  | |- inv _ (lift _) => apply inv_lift
  | |- inv _ (gets _) => apply inv_gets
  | |- inv _ (when _ _) => apply inv_when
  | |- inv _ (try_catch _ _) => apply inv_try_catch; [|intros ?]
  | |- inv _ (config_read _) => apply inv_config_read
  | |- inv _ (config_has _ _) => apply inv_config_has
  | |- inv _ (serverMsg_has _) => apply inv_serverMsg_has
  | |- inv _ (serverMsg_get _) => apply inv_serverMsg_get
  | |- inv _ (emit _) => apply inv_modify
  | |- inv _ (modify _) => apply inv_modify
  | |- inv _ (config_update _ _) => apply inv_config_update
  | |- inv _ (external _) => apply inv_external
  | |- inv _ (if ?c then _ else _) => destruct c
  | |- inv _ (match ?c with _ => _ end) => destruct c
  end.

(** The tests throw nothing but the [TypeError]. *)
Lemma field_test_throw cfg path key e :
  field_test cfg path key = Throw e -> e = JTypeError.
Proof.
  unfold field_test. revert cfg.
  induction path as [|k path IH]; intros cfg; simpl.
  - destruct cfg; simpl; congruence.
  - destruct (js_get cfg k) as [c|e'] eqn:Hg; [apply IH|].
    destruct cfg; simpl in Hg; congruence.
Qed.

(** With a missing field in the table, the first failure is the message
    of a missing field or the [TypeError]. *)
Lemma first_failure_missing cfg fields f :
  f ∈ fields -> field_missing cfg f ->
  exists e, first_failure cfg fields = Some e /\
    (e = JTypeError \/
     exists f', f' ∈ fields /\ field_missing cfg f' /\ e = JStr f'.2).
Proof.
  intros Hin Hmiss. induction fields as [|[[p k] msg] fields IH].
  - by inversion Hin.
  - cbn [first_failure].
    destruct (field_test cfg p k) as [[|]|e] eqn:Ht.
    + apply elem_of_cons in Hin as [->|Hin].
      { unfold field_missing in Hmiss. simpl in Hmiss. congruence. }
      destruct (IH Hin) as (e & He & Hor). exists e. split; [done|].
      destruct Hor as [->|(f' & Hf' & Hm & ->)]; [by left|right].
      exists f'. split; [by constructor | done].
    + eexists. split; [done|]. right. exists (p, k, msg).
      split; [by constructor | done].
    + eexists. split; [done|]. left. by eapply field_test_throw.
Qed.

(** Without failure, every test of the table is passed. *)
Lemma first_failure_none cfg fields f :
  first_failure cfg fields = None -> f ∈ fields ->
  field_test cfg f.1.1 f.1.2 = Ret true.
Proof.
  intros Hnone Hin. induction fields as [|[[p k] msg] fields IH].
  - by inversion Hin.
  - cbn [first_failure] in Hnone.
    destruct (field_test cfg p k) as [[|]|e] eqn:Ht; try discriminate.
    apply elem_of_cons in Hin as [->|Hin]; [done | auto].
Qed.

(** *** Configuration from an approved host *)

Section ServerConfiguration.
Context (w : World).

(** C1, amended.  For a configuration fetched from an approved host,
    taken after the update for legacy experiments: if an essential field
    (the experiment block, experiment.name, experiment.fullpath, the
    pavlovia block, pavlovia.URL, the gitlab block, gitlab.projectId) is
    missing, [_configure] throws the triple [{context, origin, error}] and
    the status stays [CONFIGURING].  [error] is the value of the first test
    that fails: the message naming a missing field, or the [TypeError] of
    [in] when a block tested earlier is present but is not an object. *)
Theorem configure_missing_field configURL name t resp cfg f :
  isHost w (_hosts t) = true ->
  getConfiguration w configURL = Ret resp ->
  js_get resp "config" = Ret cfg ->
  f ∈ essential_fields ->
  field_missing (legacy_update cfg) f ->
  exists e,
    (e = JTypeError \/
     exists f', f' ∈ essential_fields /\
                field_missing (legacy_update cfg) f' /\ e = JStr f'.2) /\
    first_failure (legacy_update cfg) essential_fields = Some e /\
    (_configure w configURL name t).1 =
      Throw (JObj [("context", JStr "when configuring PsychoJS for the experiment");
                   ("origin", JStr "PsychoJS.configure");
                   ("error", e)]) /\
    _status (_configure w configURL name t).2 = Status.CONFIGURING.
Proof.
  intros Hhost Hresp Hcfg Hin Hmiss.
  destruct (first_failure_missing _ _ _ Hin Hmiss) as (e & He & Hor).
  exists e. split; [exact Hor|]. split; [exact He|].
  rewrite (configure_server_fail w _ _ _ _ _ _ Hhost Hresp Hcfg He).
  split; reflexivity.
Qed.

(** The final configuration of a server run, read at its top level. *)
Lemma configured_get_other props eprops k :
  k <> "experiment" -> k <> "environment" ->
  js_get (configured_config
            (assoc_set "environment" Environment.SERVER props) eprops) k =
  js_get (JObj props) k.
Proof.
  intros H1 H2. unfold configured_config. simpl.
  rewrite !assoc_get_set_ne; done.
Qed.

Lemma configured_get_environment props eprops :
  js_get (configured_config
            (assoc_set "environment" Environment.SERVER props) eprops)
    "environment" = Ret Environment.SERVER.
Proof.
  unfold configured_config. simpl.
  rewrite assoc_get_set_ne; [|done]. by rewrite assoc_get_set_eq.
Qed.

Lemma configured_fields w' cfg t :
  _config (configured w' cfg t) = cfg /\
  _status (configured w' cfg t) = Status.CONFIGURED /\
  events (configured w' cfg t) = events t /\
  _serverMsg (configured w' cfg t) =
    Some (server_parameters (getUrlParameters w')).
Proof.
  unfold configured. destruct (noOutput _); simpl; auto.
Qed.

(** The legacy update changes a legacy configuration only. *)
Lemma legacy_update_modern cfg :
  js_in "psychoJsManager" cfg = Ret false -> legacy_update cfg = cfg.
Proof.
  destruct cfg; simpl; try done. intros [= ->]. done.
Qed.

(** C3, amended.  For a server response whose configuration has no
    legacy [psychoJsManager] block and passes every test for the essential
    fields, [_configure] returns, the status is [CONFIGURED], the
    environment is [SERVER], and the pavlovia URL and the gitlab project
    identifier of the internal configuration are those of the response. *)
Theorem configure_server_roundtrip configURL name t resp cfg :
  isHost w (_hosts t) = true ->
  getConfiguration w configURL = Ret resp ->
  js_get resp "config" = Ret cfg ->
  js_in "psychoJsManager" cfg = Ret false ->
  first_failure cfg essential_fields = None ->
  let r := _configure w configURL name t in
  r.1 = Ret tt /\
  _status r.2 = Status.CONFIGURED /\
  js_get (_config r.2) "environment" = Ret Environment.SERVER /\
  js_get_path (_config r.2) ["pavlovia"; "URL"] =
    js_get_path cfg ["pavlovia"; "URL"] /\
  js_get_path (_config r.2) ["gitlab"; "projectId"] =
    js_get_path cfg ["gitlab"; "projectId"].
Proof.
  intros Hhost Hresp Hcfg Hmodern Hvalid r. subst r.
  pose proof (legacy_update_modern _ Hmodern) as Hleg.
  rewrite <- Hleg in Hvalid.
  destruct (configure_server_ok w configURL name _ _ t Hhost Hresp Hcfg Hvalid)
    as (props & eprops & Hshape & Hexp & ->).
  rewrite Hleg in Hshape. subst cfg. cbn [fst snd].
  destruct (configured_fields w
    (configured_config (assoc_set "environment" Environment.SERVER props) eprops)
    (with_event (EvGetConfiguration configURL)
       (with_status Status.CONFIGURING t))) as (-> & -> & _).
  split; [done|]. split; [done|].
  split; [apply configured_get_environment|].
  cbn [js_get_path]. rewrite !configured_get_other; done.
Qed.

End ServerConfiguration.

Section LocalAndLegacy.
Context (w : World).

Lemma configured_field_test props eprops path key :
  path <> [] -> head path <> Some "experiment" ->
  head path <> Some "environment" ->
  field_test (configured_config
                (assoc_set "environment" Environment.SERVER props) eprops)
    path key = field_test (JObj props) path key.
Proof.
  intros Hne H1 H2. destruct path as [|k path]; [done|].
  unfold field_test. cbn [js_get_path]. simpl in H1, H2.
  rewrite configured_get_other; [done| |]; congruence.
Qed.

(** C4, amended.  A configuration that [_configure] accepts on an
    approved host has environment [SERVER] and owns the keys [pavlovia.URL]
    and [gitlab.projectId] (their values are not inspected); a
    configuration in which one of the two keys is not found is rejected:
    [_configure] throws and the status stays [CONFIGURING]. *)
Theorem configure_server_keys_present configURL name t resp cfg :
  isHost w (_hosts t) = true ->
  getConfiguration w configURL = Ret resp ->
  js_get resp "config" = Ret cfg ->
  let r := _configure w configURL name t in
  (r.1 = Ret tt ->
   js_get (_config r.2) "environment" = Ret Environment.SERVER /\
   field_test (_config r.2) ["pavlovia"] "URL" = Ret true /\
   field_test (_config r.2) ["gitlab"] "projectId" = Ret true) /\
  (field_test (legacy_update cfg) ["pavlovia"] "URL" <> Ret true \/
   field_test (legacy_update cfg) ["gitlab"] "projectId" <> Ret true ->
   (exists e, r.1 = Throw e) /\ _status r.2 = Status.CONFIGURING).
Proof.
  intros Hhost Hresp Hcfg r. subst r.
  destruct (first_failure (legacy_update cfg) essential_fields) as [e|] eqn:Hf.
  - rewrite (configure_server_fail w _ _ _ _ _ _ Hhost Hresp Hcfg Hf).
    split; [discriminate|]. intros _. split; [eauto | reflexivity].
  - pose proof (first_failure_none _ _ (["pavlovia"], "URL",
        "missing URL in pavlovia block in configuration") Hf) as Hurl.
    pose proof (first_failure_none _ _ (["gitlab"], "projectId",
        "missing projectId in gitlab block in configuration") Hf) as Hpid.
    simpl in Hurl, Hpid.
    assert (Hurl' := Hurl ltac:(unfold essential_fields; set_solver)).
    assert (Hpid' := Hpid ltac:(unfold essential_fields; set_solver)).
    clear Hurl Hpid.
    destruct (configure_server_ok w configURL name _ _ t Hhost Hresp Hcfg Hf)
      as (props & eprops & Hshape & Hexp & ->).
    rewrite Hshape in Hurl', Hpid'. cbn [fst snd].
    destruct (configured_fields w
      (configured_config (assoc_set "environment" Environment.SERVER props)
         eprops)
      (with_event (EvGetConfiguration configURL)
         (with_status Status.CONFIGURING t))) as (-> & _).
    split.
    + intros _. split; [apply configured_get_environment|].
      rewrite !configured_field_test; done.
    + intros [H|H]; congruence.
Qed.

(** C8.  When the run is not launched from an approved host,
    [_configure] returns with status [CONFIGURED] and the ad-hoc
    configuration: environment [LOCAL], save format CSV, incomplete
    results kept, the name given by the caller (and the initial upload
    options); no call is made to fetch a remote configuration. *)
Theorem configure_local_run configURL name t :
  isHost w (_hosts t) = false ->
  let r := _configure w configURL name t in
  r.1 = Ret tt /\
  _status r.2 = Status.CONFIGURED /\
  _config r.2 =
    JObj [("environment", Environment.LOCAL);
          ("experiment",
           JObj [("keys", JArr []);
                 ("name", JStr name);
                 ("saveFormat", SaveFormat.CSV);
                 ("saveIncompleteResults", JBool true);
                 ("resultsUpload",
                  JObj [("intervalId", JNum (-1)); ("period", JNum (-1))])])] /\
  events r.2 = events t.
Proof.
  intros Hhost r. subst r. rewrite (configure_local w _ _ _ Hhost).
  cbn [fst snd].
  match goal with |- context [configured w ?c ?s] =>
    destruct (configured_fields w c s) as (-> & -> & -> & _) end.
  done.
Qed.

Lemma legacy_update_legacy props :
  assoc_has "psychoJsManager" props = true ->
  legacy_update (JObj props) =
  JObj (assoc_set "pavlovia" (JObj [("URL", JStr "https://pavlovia.org")])
          (assoc_del "psychoJsManager" props)).
Proof. intros H. simpl. by rewrite H. Qed.

(** On an approved host [_configure] depends on the response through the
    legacy update of its configuration only. *)
Lemma configure_determined configURL name t resp cfg resp' cfg' w' :
  isHost w (_hosts t) = true ->
  getConfiguration w configURL = Ret resp ->
  js_get resp "config" = Ret cfg ->
  isHost w' (_hosts t) = true ->
  getConfiguration w' configURL = Ret resp' ->
  js_get resp' "config" = Ret cfg' ->
  getUrlParameters w' = getUrlParameters w ->
  legacy_update cfg' = legacy_update cfg ->
  _configure w' configURL name t = _configure w configURL name t.
Proof.
  intros Hhost Hresp Hcfg Hhost' Hresp' Hcfg' Hpar Hleg.
  destruct (first_failure (legacy_update cfg) essential_fields) as [e|] eqn:Hf.
  - rewrite (configure_server_fail w _ _ _ _ _ _ Hhost Hresp Hcfg Hf).
    rewrite <- Hleg in Hf |- *.
    by rewrite (configure_server_fail w' _ _ _ _ _ _ Hhost' Hresp' Hcfg' Hf).
  - destruct (configure_server_ok w configURL name _ _ t Hhost Hresp Hcfg Hf)
      as (props & eprops & Hshape & Hexp & ->).
    rewrite <- Hleg in Hf.
    destruct (configure_server_ok w' configURL name _ _ t Hhost' Hresp' Hcfg' Hf)
      as (props' & eprops' & Hshape' & Hexp' & ->).
    rewrite Hleg, Hshape in Hshape'. injection Hshape' as <-.
    rewrite Hexp in Hexp'. injection Hexp' as <-.
    unfold configured. by rewrite Hpar.
Qed.

(** C10.  For a server response whose configuration has a legacy
    [psychoJsManager] block: the updated configuration has no such block,
    has the pavlovia block [{URL: "https://pavlovia.org"}], and agrees
    with the response on every other key; it passes the two tests on the
    pavlovia block; [_configure] behaves exactly as on a response that
    holds the updated configuration; and when the remaining essential
    fields are present it returns with status [CONFIGURED], environment
    [SERVER] and that pavlovia URL. *)
Theorem configure_legacy configURL name t resp cfg :
  isHost w (_hosts t) = true ->
  getConfiguration w configURL = Ret resp ->
  js_get resp "config" = Ret cfg ->
  js_in "psychoJsManager" cfg = Ret true ->
  let modern := legacy_update cfg in
  let r := _configure w configURL name t in
  js_in "psychoJsManager" modern = Ret false /\
  js_get modern "pavlovia" = Ret (JObj [("URL", JStr "https://pavlovia.org")]) /\
  (forall k, k <> "psychoJsManager" -> k <> "pavlovia" ->
             js_get modern k = js_get cfg k) /\
  field_test modern [] "pavlovia" = Ret true /\
  field_test modern ["pavlovia"] "URL" = Ret true /\
  r = _configure
        (with_getConfiguration w (Ret (JObj [("config", modern)])))
        configURL name t /\
  (first_failure modern essential_fields = None ->
   r.1 = Ret tt /\
   _status r.2 = Status.CONFIGURED /\
   js_get (_config r.2) "environment" = Ret Environment.SERVER /\
   js_get_path (_config r.2) ["pavlovia"; "URL"] =
     Ret (JStr "https://pavlovia.org") /\
   js_in "psychoJsManager" (_config r.2) = Ret false).
Proof.
  intros Hhost Hresp Hcfg Hleg modern r. subst modern r.
  assert (Hobj : exists props, cfg = JObj props /\
                               assoc_has "psychoJsManager" props = true).
  { destruct cfg; simpl in Hleg; try discriminate.
    - unfold assoc_has in Hleg. rewrite array_props_letter in Hleg; done.
    - injection Hleg as Hleg. eauto. }
  destruct Hobj as (props & -> & Hhas).
  rewrite (legacy_update_legacy _ Hhas).
  set (props' := assoc_set "pavlovia" _ _).
  assert (Hpav : assoc_get "pavlovia" props' =
                 Some (JObj [("URL", JStr "https://pavlovia.org")]))
    by apply assoc_get_set_eq.
  assert (Hman : assoc_get "psychoJsManager" props' = None).
  { unfold props'. rewrite assoc_get_set_ne, assoc_get_del_eq; done. }
  split; [simpl; unfold assoc_has; by rewrite Hman|].
  split; [simpl; by rewrite Hpav|].
  split.
  { intros k H1 H2. simpl. unfold props'.
    rewrite assoc_get_set_ne, assoc_get_del_ne; done. }
  split; [unfold field_test; simpl; unfold assoc_has; by rewrite Hpav|].
  split; [unfold field_test; simpl; by rewrite Hpav|].
  split.
  { symmetry. eapply configure_determined; try done.
    rewrite (legacy_update_legacy _ Hhas). fold props'.
    simpl. unfold assoc_has. by rewrite Hman. }
  intros Hvalid.
  pose proof (legacy_update_legacy _ Hhas) as Hlu. fold props' in Hlu.
  rewrite <- Hlu in Hvalid.
  destruct (configure_server_ok w configURL name _ _ t Hhost Hresp Hcfg Hvalid)
    as (props2 & eprops & Hshape & Hexp & ->).
  rewrite Hlu in Hshape. injection Hshape as <-.
  cbn [fst snd].
  match goal with |- context [configured w ?c ?s] =>
    destruct (configured_fields w c s) as (-> & -> & _) end.
  split; [done|]. split; [done|].
  split; [apply configured_get_environment|].
  split.
  - cbn [js_get_path]. rewrite configured_get_other; [|done..].
    simpl. by rewrite Hpav.
  - unfold configured_config. simpl. unfold assoc_has.
    rewrite !assoc_get_set_ne; [|done..]. by rewrite Hman.
Qed.

End LocalAndLegacy.

(** *** The server message board *)

(** Lookups in the message board. *)
Lemma server_parameters_fold params (m : gmap string string) k :
  foldl (fun m '(key, value) =>
           if js_indexOf key "__" =? 0 then <[key := value]> m else m)
        m params !! k =
  match (if String.prefix "__" k then last_value k params else None) with
  | Some v => Some v
  | None => m !! k
  end.
Proof.
  revert m. induction params as [|[k' v'] params IH]; intros m;
    cbn [foldl last_value].
  - by destruct (String.prefix "__" k).
  - rewrite IH. rewrite js_indexOf_prefix.
    destruct (String.prefix "__" k) eqn:Hk.
    2:{ destruct (String.prefix "__" k') eqn:Hk'; [|done].
        rewrite lookup_insert_ne; [done | congruence]. }
    destruct (last_value k params); [done|].
    destruct (String.eqb k k') eqn:E.
    + apply String.eqb_eq in E. subst k'. rewrite Hk.
      by rewrite lookup_insert_eq.
    + apply String.eqb_neq in E.
      destruct (String.prefix "__" k'); [|done].
      by rewrite lookup_insert_ne.
Qed.

Lemma server_parameters_lookup params k :
  server_parameters params !! k =
  if String.prefix "__" k then last_value k params else None.
Proof.
  unfold server_parameters. rewrite server_parameters_fold.
  rewrite lookup_empty. by destruct (if String.prefix "__" k then _ else _).
Qed.

(** A key has a last value when the query has an entry for it. *)
Lemma last_value_is_Some k params :
  is_Some (last_value k params) <-> exists v, In (k, v) params.
Proof.
  induction params as [|[k' v'] params IH]; simpl.
  - split; [intros [? [=]] | intros [? []]].
  - destruct (last_value k params) as [v|].
    + split; [|eauto]. intros _.
      destruct (proj1 IH) as [v0 Hv0]; eauto.
    + destruct (String.eqb k k') eqn:E.
      * apply String.eqb_eq in E. subst. split; eauto.
      * apply String.eqb_neq in E. split; [intros [? [=]]|].
        intros [v [[=]|Hin]]; [congruence|].
        apply IH. eauto.
Qed.

Ltac unfold_methods :=
  unfold quit, quit_body, onTerminate, unload_listener, openWindow,
    setRedirectUrls, start_after_configure, start_on_server,
    stop_upload_timer, delete_lastUploadTimestamp, window_call,
    getEnvironment.

Ltac inv_steps special :=
  repeat first [ progress cbv zeta | special | inv_step ].

Ltac no_special := fail.

Section Board.
Context (w : World).

Ltac board := unfold_methods; inv_steps no_special;
  intros; unfold board_is in *; assumption.

(** No method below assigns the message board. *)
Lemma board_quit m closeWindow isCompleted message showOK :
  inv (board_is m) (quit w closeWindow isCompleted message showOK).
Proof. board. Qed.

Lemma board_onTerminate m closeWindow isCompleted :
  inv (board_is m) (onTerminate closeWindow isCompleted).
Proof. board. Qed.

Lemma board_unload_listener m : inv (board_is m) unload_listener.
Proof. board. Qed.

Lemma board_openWindow m : inv (board_is m) openWindow.
Proof. board. Qed.

Lemma board_setRedirectUrls m a b : inv (board_is m) (setRedirectUrls a b).
Proof. board. Qed.

Lemma board_start_after_configure m surveyId :
  inv (board_is m) (start_after_configure w surveyId).
Proof. board. Qed.

End Board.

(** *** A successful configuration, and the save-results flag *)

Section Output.
Context (w : World).

(** [_configure] when the configuration cannot be fetched or read. *)
Lemma configure_fetch_fail configURL name e t :
  isHost w (_hosts t) = true ->
  getConfiguration w configURL = Throw e ->
  _configure w configURL name t =
  (Throw (with_error configure_context configure_origin e),
   with_event (EvGetConfiguration configURL)
     (with_status Status.CONFIGURING t)).
Proof.
  intros Hhost Hresp.
  unfold _configure, _configure_body, read_server_configuration. run.
  cbn [_hosts with_status]. rewrite Hhost, Hresp. reflexivity.
Qed.

Lemma configure_response_fail configURL name resp e t :
  isHost w (_hosts t) = true ->
  getConfiguration w configURL = Ret resp ->
  js_get resp "config" = Throw e ->
  _configure w configURL name t =
  (Throw (with_error configure_context configure_origin e),
   with_event (EvGetConfiguration configURL)
     (with_status Status.CONFIGURING t)).
Proof.
  intros Hhost Hresp Hcfg.
  unfold _configure, _configure_body, read_server_configuration. run.
  cbn [_hosts with_status]. rewrite Hhost, Hresp, Hcfg. reflexivity.
Qed.

(** A successful [_configure] ends in a state built by [configured]. *)
Lemma configure_ok_shape configURL name t :
  (_configure w configURL name t).1 = Ret tt ->
  exists props eprops t',
    (_configure w configURL name t).2 =
      configured w (configured_config props eprops) t' /\
    _saveResults t' = _saveResults t.
Proof.
  intros Hok. destruct (isHost w (_hosts t)) eqn:Hhost.
  - destruct (getConfiguration w configURL) as [resp|e] eqn:Hresp.
    2:{ rewrite (configure_fetch_fail _ _ _ _ Hhost Hresp) in Hok.
        discriminate. }
    destruct (js_get resp "config") as [cfg|e] eqn:Hcfg.
    2:{ rewrite (configure_response_fail _ _ _ _ _ Hhost Hresp Hcfg) in Hok.
        discriminate. }
    destruct (first_failure (legacy_update cfg) essential_fields)
      as [e|] eqn:Hf.
    { rewrite (configure_server_fail w _ _ _ _ _ _ Hhost Hresp Hcfg Hf) in Hok.
      discriminate. }
    destruct (configure_server_ok w configURL name _ _ t Hhost Hresp Hcfg Hf)
      as (props & eprops & _ & _ & ->).
    eexists _, _, _. split; reflexivity.
  - rewrite (configure_local w _ _ _ Hhost).
    exists [("environment", Environment.LOCAL);
            ("experiment",
             JObj [("keys", JArr []); ("name", JStr name);
                   ("saveFormat", SaveFormat.CSV);
                   ("saveIncompleteResults", JBool true)])],
      [("keys", JArr []); ("name", JStr name);
       ("saveFormat", SaveFormat.CSV);
       ("saveIncompleteResults", JBool true)],
      (with_status Status.CONFIGURING t).
    split; reflexivity.
Qed.

(** What holds after a successful [_configure] and is kept by the rest of
    [start] holds after a successful [start]. *)
Lemma start_ok_inv (I : PsychoJS -> Prop) configURL expName surveyId t :
  ((_configure w configURL expName t).1 = Ret tt ->
   I (_configure w configURL expName t).2) ->
  inv I (start_after_configure w surveyId) ->
  (start w configURL expName surveyId t).1 = Ret tt ->
  I (start w configURL expName surveyId t).2.
Proof.
  intros Hc Hrest. unfold start, start_body, try_catch, bind.
  destruct (_configure w configURL expName t) as [[[]|e] t1]; simpl in *.
  - specialize (Hrest t1 (Hc eq_refl)).
    destruct (start_after_configure w surveyId t1) as [[[]|e] t2];
      simpl in *; [done | discriminate].
  - discriminate.
Qed.

(** C6.  After a successful [_configure] (alone or within [start]) the
    message board holds exactly the query parameters whose key starts
    with a double underscore, each mapped to the value of the last entry
    with that key; [quit], its closure [onTerminate], the [unload]
    listener, [openWindow], [setRedirectUrls] and the part of [start]
    that follows [_configure] leave the board as it is. *)
Theorem serverMsg_populated_once :
  let board := server_parameters (getUrlParameters w) in
  (forall key,
     board !! key =
     if String.prefix "__" key then last_value key (getUrlParameters w)
     else None) /\
  (forall configURL name t,
     (_configure w configURL name t).1 = Ret tt ->
     _serverMsg (_configure w configURL name t).2 = Some board) /\
  (forall configURL expName surveyId t,
     (start w configURL expName surveyId t).1 = Ret tt ->
     _serverMsg (start w configURL expName surveyId t).2 = Some board) /\
  (forall t closeWindow isCompleted message showOK,
     _serverMsg (quit w closeWindow isCompleted message showOK t).2 =
     _serverMsg t) /\
  (forall t closeWindow isCompleted,
     _serverMsg (onTerminate closeWindow isCompleted t).2 = _serverMsg t) /\
  (forall t, _serverMsg (unload_listener t).2 = _serverMsg t) /\
  (forall t, _serverMsg (openWindow t).2 = _serverMsg t) /\
  (forall t completionUrl cancellationUrl,
     _serverMsg (setRedirectUrls completionUrl cancellationUrl t).2 =
     _serverMsg t).
Proof.
  intros board.
  assert (Hconf : forall configURL name t,
     (_configure w configURL name t).1 = Ret tt ->
     _serverMsg (_configure w configURL name t).2 = Some board).
  { intros configURL name t Hok.
    destruct (configure_ok_shape _ _ _ Hok) as (props & eprops & t' & -> & _).
    apply configured_fields. }
  split; [apply server_parameters_lookup|].
  split; [exact Hconf|].
  split.
  { intros configURL expName surveyId t.
    apply (start_ok_inv (board_is (Some board))); [apply Hconf|].
    apply board_start_after_configure. }
  split; [intros; by apply board_quit|].
  split; [intros; by apply board_onTerminate|].
  split; [intros; by apply board_unload_listener|].
  split; [intros; by apply board_openWindow|].
  intros; by apply board_setRedirectUrls.
Qed.

Ltac output_special :=
  idtac;
  lazymatch goal with
  | |- inv _ (bind (gets _saveResults) _) =>
      apply (inv_bind_val _ (fun a => a = false));
      [ intros ? ? [? _] [= <-]; assumption
      | apply inv_gets
      | intros ? ->; rewrite ?andb_false_r; cbn [when] ]
  end.

Ltac output_leaf :=
  intros; unfold output_off in *;
  match goal with
  | H : _ /\ _ |- _ => destruct H as [? ?]
  end;
  split; [assumption|];
  cbn [events with_event];
  try (rewrite List.filter_app; cbn [List.filter is_output_event];
       rewrite app_nil_r);
  assumption.

(** With the flag [false], no method below saves or flushes. *)
Lemma output_off_quit evs closeWindow isCompleted message showOK :
  inv (output_off evs) (quit w closeWindow isCompleted message showOK).
Proof. unfold_methods. inv_steps output_special; output_leaf. Qed.

Lemma output_off_unload_listener evs : inv (output_off evs) unload_listener.
Proof.
  unfold_methods. inv_steps output_special; output_leaf.
Qed.

End Output.

(** *** The upload options *)

(** A read that yields a defined value under a named key reads an
    object. *)
Lemma js_get_object v k c :
  named_key k = true -> k <> "length" ->
  js_get v k = Ret c -> c <> JUndefined ->
  exists props, v = JObj props /\ assoc_get k props = Some c.
Proof.
  intros Hk Hl Hg Hc. destruct v; simpl in Hg; try congruence.
  - rewrite array_props_letter in Hg by done. simpl in Hg. congruence.
  - exists props. split; [done|].
    destruct (assoc_get k props); simpl in Hg; congruence.
Qed.

(** The shape of a configuration without periodic upload. *)
Lemma upload_off_shape cfg :
  upload_off cfg <->
  exists props eprops rprops p,
    cfg = JObj props /\
    assoc_get "experiment" props = Some (JObj eprops) /\
    assoc_get "resultsUpload" eprops = Some (JObj rprops) /\
    assoc_get "intervalId" rprops = Some (JNum (-1)) /\
    assoc_get "period" rprops = Some (JNum p) /\ p <= 0.
Proof.
  split.
  - intros [Hid (p & Hp & Hle)].
    cbn [js_get_path] in Hid, Hp.
    destruct (js_get cfg "experiment") as [c1|] eqn:H1; [|discriminate].
    destruct (js_get c1 "resultsUpload") as [c2|] eqn:H2; [|discriminate].
    destruct (js_get c2 "intervalId") as [c3|] eqn:H3; [|discriminate].
    destruct (js_get c2 "period") as [c4|] eqn:H4; [|discriminate].
    injection Hid as ->. injection Hp as ->.
    apply js_get_object in H3 as (rprops & -> & H3); [|done..].
    apply js_get_object in H2 as (eprops & -> & H2); [|done..].
    apply js_get_object in H1 as (props & -> & H1); [|done..].
    simpl in H4. destruct (assoc_get "period" rprops) eqn:H4'; simpl in H4;
      [|discriminate]. injection H4 as ->.
    eauto 10.
  - intros (props & eprops & rprops & p & -> & H1 & H2 & H3 & H4 & Hle).
    split; [|exists p; split; [|done]];
      simpl; rewrite H1; simpl; rewrite H2; simpl.
    + by rewrite H3.
    + by rewrite H4.
Qed.

(** [_configure] leaves the periodic upload off. *)
Lemma upload_off_configured props eprops :
  upload_off (configured_config props eprops).
Proof.
  apply upload_off_shape.
  exists (assoc_set "experiment"
            (JObj (assoc_set "resultsUpload" initial_resultsUpload eprops)) props),
    (assoc_set "resultsUpload" initial_resultsUpload eprops),
    [("intervalId", JNum (-1)); ("period", JNum (-1))], (-1).
  split; [reflexivity|]. rewrite !assoc_get_set_eq.
  repeat split; reflexivity || lia.
Qed.

(** Forgetting the last upload time keeps the periodic upload off. *)
Lemma upload_off_delete cfg c :
  upload_off cfg ->
  js_update_path cfg ["experiment"; "resultsUpload"]
    (fun c => js_delete c "lastUploadTimestamp") = Ret c ->
  upload_off c.
Proof.
  intros Hoff Hupd.
  apply upload_off_shape in Hoff
    as (props & eprops & rprops & p & -> & H1 & H2 & H3 & H4 & Hle).
  simpl in Hupd. rewrite H1 in Hupd. simpl in Hupd. rewrite H2 in Hupd.
  simpl in Hupd. injection Hupd as <-.
  apply upload_off_shape.
  exists (assoc_set "experiment"
            (JObj (assoc_set "resultsUpload"
                     (JObj (assoc_del "lastUploadTimestamp" rprops)) eprops))
            props),
    (assoc_set "resultsUpload"
       (JObj (assoc_del "lastUploadTimestamp" rprops)) eprops),
    (assoc_del "lastUploadTimestamp" rprops), p.
  split; [reflexivity|].
  rewrite !assoc_get_set_eq. rewrite !assoc_get_del_ne by done.
  repeat split; assumption.
Qed.

Section NoOutput.
Context (w : World).

Ltac blind_leaf := intros; assumption.

Lemma saveResults_start_after_configure surveyId :
  inv (fun t => _saveResults t = false) (start_after_configure w surveyId).
Proof. unfold_methods. inv_steps no_special; blind_leaf. Qed.

(** C7.  When the query holds the parameter [__noOutput], a successful
    [_configure] (alone or within [start]) leaves the save-results flag
    [false]; with the flag [false], [quit] and the [unload] listener keep
    it [false] and neither save results nor flush the logs. *)
Theorem noOutput_suppresses_saving :
  (exists value, In ("__noOutput", value) (getUrlParameters w)) ->
  (forall configURL name t,
     (_configure w configURL name t).1 = Ret tt ->
     _saveResults (_configure w configURL name t).2 = false) /\
  (forall configURL expName surveyId t,
     (start w configURL expName surveyId t).1 = Ret tt ->
     _saveResults (start w configURL expName surveyId t).2 = false) /\
  (forall t closeWindow isCompleted message showOK,
     _saveResults t = false ->
     let r := quit w closeWindow isCompleted message showOK t in
     _saveResults r.2 = false /\
     List.filter is_output_event (events r.2) =
       List.filter is_output_event (events t)) /\
  (forall t,
     _saveResults t = false ->
     _saveResults (unload_listener t).2 = false /\
     List.filter is_output_event (events (unload_listener t).2) =
       List.filter is_output_event (events t)).
Proof.
  intros Hpar.
  assert (Hconf : forall configURL name t,
     (_configure w configURL name t).1 = Ret tt ->
     _saveResults (_configure w configURL name t).2 = false).
  { intros configURL name t Hok.
    destruct (configure_ok_shape w _ _ _ Hok) as (props & eprops & t' & -> & _).
    unfold configured, noOutput. rewrite server_parameters_lookup.
    cbn [String.prefix].
    apply last_value_is_Some in Hpar as [v Hv].
    rewrite Hv. reflexivity. }
  split; [exact Hconf|]. split.
  { intros configURL expName surveyId t.
    apply (start_ok_inv w (fun t => _saveResults t = false)); [apply Hconf|].
    apply saveResults_start_after_configure. }
  split.
  - intros t closeWindow isCompleted message showOK Hs r.
    apply (output_off_quit w _ closeWindow isCompleted message showOK t).
    split; [exact Hs | reflexivity].
  - intros t Hs. apply (output_off_unload_listener _ t).
    split; [exact Hs | reflexivity].
Qed.

End NoOutput.

Ltac timer_special :=
  idtac;
  lazymatch goal with
  | |- inv _ (bind (config_read
                      ["experiment"; "resultsUpload"; "intervalId"]) _) =>
      apply (inv_bind_val _ (fun a => a = JNum (-1)));
      [ intros ? ? [[Hid _] _] Hr; cbn [config_read fst] in Hr; congruence
      | apply inv_config_read
      | intros ? ->; cbn [when js_gt_zero js_to_number Z.ltb Z.compare] ]
  | |- inv _ (bind (if ?sr then bind (config_read _) _ else ret false) _) =>
      apply (inv_bind_val _ (fun a => a = false));
      [ intros ? ? [[_ (p & Hp & Hle)] _] Hr; destruct sr;
        [ cbv beta iota delta [bind config_read ret fst] in Hr;
          rewrite Hp in Hr; injection Hr as <-;
          cbn [js_gt_zero js_to_number]; lia
        | by injection Hr as <- ]
      | destruct sr; repeat inv_step
      | intros ? ->; cbn [when] ]
  end.

Section Timer.
Context (w : World).
Context (Hw : upload_never_enabled w).

Ltac timer_leaf :=
  intros; unfold timer_off in *;
  match goal with
  | H : _ /\ _ |- _ => destruct H as [? ?]
  end;
  split;
  [ first [ assumption
          | eapply upload_off_delete; eassumption
          | by apply Hw ]
  | cbn [events with_event with_config];
    try (rewrite List.filter_app; cbn [List.filter is_timer_event];
         rewrite app_nil_r);
    assumption ].

(** With the periodic upload off and collaborators that keep it off, no
    method below touches the timer. *)
Lemma timer_off_quit evs closeWindow isCompleted message showOK :
  inv (timer_off evs) (quit w closeWindow isCompleted message showOK).
Proof. unfold_methods. inv_steps timer_special; timer_leaf. Qed.

Lemma timer_off_unload_listener evs : inv (timer_off evs) unload_listener.
Proof. unfold_methods. inv_steps timer_special; timer_leaf. Qed.

Lemma timer_off_start_after_configure evs surveyId :
  inv (timer_off evs) (start_after_configure w surveyId).
Proof. unfold_methods. inv_steps timer_special; timer_leaf. Qed.

End Timer.

(** *** Start and termination *)

(** Sequencing after a part that keeps the invariant. *)
Lemma post_bind {A B} (I : PsychoJS -> Prop) (Q : Outcome B -> PsychoJS -> Prop)
  (m : M A) (f : A -> M B) :
  inv I m -> (forall e t, I t -> Q (Throw e) t) ->
  (forall a, post I Q (f a)) -> post I Q (bind m f).
Proof.
  intros Hm HQ Hf t Ht. unfold bind. specialize (Hm t Ht).
  destruct (m t) as [[a|e] t']; simpl in *; [by apply Hf | by apply HQ].
Qed.

Lemma post_inv {A} (I : PsychoJS -> Prop) (Q : Outcome A -> PsychoJS -> Prop)
  (m : M A) :
  inv I m -> (forall o t, I t -> Q o t) -> post I Q m.
Proof. intros Hm HQ t Ht. apply HQ, Hm, Ht. Qed.

Section Termination.
Context (w : World).

(** [getEnvironment] reads only. *)
Lemma getEnvironment_state t : (getEnvironment t).2 = t.
Proof.
  unfold getEnvironment. run.
  destruct (js_strict_eq (_config t) JUndefined); [reflexivity|].
  by destruct (js_get (_config t) "environment").
Qed.

(** [_configure] makes at most the call that fetches the configuration. *)
Lemma configure_events configURL name t :
  events (_configure w configURL name t).2 = events t \/
  events (_configure w configURL name t).2 =
    (events t ++ [EvGetConfiguration configURL])%list.
Proof.
  destruct (isHost w (_hosts t)) eqn:Hhost.
  - right.
    destruct (getConfiguration w configURL) as [resp|e] eqn:Hresp.
    2:{ by rewrite (configure_fetch_fail w _ _ _ _ Hhost Hresp). }
    destruct (js_get resp "config") as [cfg|e] eqn:Hcfg.
    2:{ by rewrite (configure_response_fail w _ _ _ _ _ Hhost Hresp Hcfg). }
    destruct (first_failure (legacy_update cfg) essential_fields)
      as [e|] eqn:Hf.
    { by rewrite (configure_server_fail w _ _ _ _ _ _ Hhost Hresp Hcfg Hf). }
    destruct (configure_server_ok w configURL name _ _ t Hhost Hresp Hcfg Hf)
      as (props & eprops & _ & _ & ->).
    cbn [snd].
    match goal with |- context [configured w ?c ?s] =>
      destruct (configured_fields w c s) as (_ & _ & -> & _) end.
    reflexivity.
  - left. rewrite (configure_local w _ _ _ Hhost). cbn [snd].
    match goal with |- context [configured w ?c ?s] =>
      destruct (configured_fields w c s) as (_ & _ & -> & _) end.
    reflexivity.
Qed.

Lemma configure_timer_events configURL name t :
  List.filter is_timer_event (events (_configure w configURL name t).2) =
  List.filter is_timer_event (events t).
Proof.
  destruct (configure_events configURL name t) as [->| ->]; [done|].
  rewrite List.filter_app. simpl. apply app_nil_r.
Qed.

(** C5.  When the collaborators never configure a positive upload
    period (and do not arm a timer of their own), [start] neither arms
    nor clears the upload timer, and after it returns the timer
    identifier is [-1] and the period is not positive; [quit] and the
    [unload] listener keep it so and touch no timer either. *)
Theorem upload_timer_never_armed :
  upload_never_enabled w ->
  (forall configURL expName surveyId t,
     let r := start w configURL expName surveyId t in
     List.filter is_timer_event (events r.2) =
       List.filter is_timer_event (events t) /\
     (r.1 = Ret tt -> upload_off (_config r.2))) /\
  (forall t closeWindow isCompleted message showOK,
     upload_off (_config t) ->
     let r := quit w closeWindow isCompleted message showOK t in
     List.filter is_timer_event (events r.2) =
       List.filter is_timer_event (events t) /\
     upload_off (_config r.2)) /\
  (forall t,
     upload_off (_config t) ->
     List.filter is_timer_event (events (unload_listener t).2) =
       List.filter is_timer_event (events t) /\
     upload_off (_config (unload_listener t).2)).
Proof.
  intros Hw. split; [|split].
  - intros configURL expName surveyId t r. subst r.
    pose proof (configure_timer_events configURL expName t) as Hev.
    pose proof (configure_ok_shape w configURL expName t) as Hshape.
    unfold start, start_body, try_catch, bind.
    destruct (_configure w configURL expName t) as [[[]|e] t1]; simpl in *.
    + destruct (Hshape eq_refl) as (props & eprops & t' & -> & _).
      pose proof (timer_off_start_after_configure w Hw
        (List.filter is_timer_event (events t)) surveyId
        (configured w (configured_config props eprops) t')) as Hinv.
      destruct Hinv as [Hoff Hsame].
      { split; [|exact Hev].
        destruct (configured_fields w (configured_config props eprops) t')
          as (-> & _).
        apply upload_off_configured. }
      destruct (start_after_configure w surveyId _) as [[[]|e] t2];
        simpl in *; split; done.
    + split; [exact Hev | discriminate].
  - intros t closeWindow isCompleted message showOK Hoff r.
    destruct (timer_off_quit w Hw (List.filter is_timer_event (events t))
                closeWindow isCompleted message showOK t) as [H1 H2];
      [split; done | split; done].
  - intros t Hoff.
    destruct (timer_off_unload_listener
                (List.filter is_timer_event (events t)) t) as [H1 H2];
      [split; done | split; done].
Qed.

Ltac close_leaf :=
  intros; unfold close_count in *;
  cbn [events with_event with_config];
  try (rewrite List.filter_app; cbn [List.filter is_closeSession_event];
       rewrite app_nil_r);
  assumption.

Ltac close_inv := unfold_methods; inv_steps no_special; close_leaf.

(** C2, amended.  When [closeSession] fails with [error]: a [quit] on
    the server does not return normally, it throws and leaves the status
    [ERROR]; and a [quit] that has called [closeSession] throws the
    triple [{context, origin, error}] with status [ERROR], the call of
    [closeSession] being the last collaborator call it makes (no closing
    dialog, no [onTerminate]). *)
Theorem quit_closeSession_failure t closeWindow isCompleted message showOK e :
  (forall c, (closeSession w isCompleted c).1 = Throw e) ->
  let r := quit w closeWindow isCompleted message showOK t in
  (is_Some (_experiment t) ->
   js_get (_config t) "environment" = Ret Environment.SERVER ->
   (exists e', r.1 = Throw e') /\ _status r.2 = Status.ERROR) /\
  (List.filter is_closeSession_event (events r.2) <>
     List.filter is_closeSession_event (events t) ->
   r.1 = Throw (JObj [("context", JStr "when terminating the experiment");
                      ("origin", JStr "PsychoJS.quit");
                      ("error", e)]) /\
   _status r.2 = Status.ERROR /\
   last (events r.2) = Some (EvCloseSession isCompleted)).
Proof.
  intros Hclose r. subst r.
  set (evs := List.filter is_closeSession_event (events t)) in *.
  assert (Hbody : forall isServerEnv,
            post (close_count evs)
              (fun o t' =>
                 (close_count evs t' /\ (isServerEnv = true -> o <> Ret tt)) \/
                 (o = Throw e /\
                  last (events t') = Some (EvCloseSession isCompleted)))
              (quit_body w closeWindow isCompleted message showOK isServerEnv)).
  { intros isServerEnv. unfold quit_body.
    do 8 (apply post_bind;
          [ close_inv
          | intros; left; split; [assumption | discriminate]
          | intros ? ]).
    destruct isServerEnv; cbn [when].
    - intros t1 Ht1. right. run.
      specialize (Hclose (_config (with_event (EvCloseSession isCompleted)
        (with_event (EvFinishDialogNextStep "closing the session") t1)))).
      unfold external.
      destruct (closeSession w isCompleted _) as [o c]. simpl in Hclose.
      subst o. cbn [fst snd events with_config with_event].
      split; [reflexivity|]. by rewrite last_snoc.
    - apply post_inv; [close_inv|].
      intros; left; split; [assumption | discriminate]. }
  unfold quit. run.
  destruct (_experiment t) as [h|].
  2:{ split; [intros [? [=]] | intros Hc; by destruct Hc]. }
  set (t1 := with_status Status.STOPPED _).
  assert (Hserver : js_get (_config t) "environment" = Ret Environment.SERVER ->
                    getEnvironment t1 = (Ret Environment.SERVER, t1)).
  { intros Henv. unfold getEnvironment. run.
    cbn [_config t1 with_status with_experiment].
    destruct (_config t); try discriminate; simpl in *; by rewrite Henv. }
  pose proof (getEnvironment_state t1) as Hst.
  destruct (getEnvironment t1) as [[env|e0] t1']; simpl in Hst; subst t1'.
  2:{ split; [|intros Hc; by destruct Hc].
      intros _ Henv. by specialize (Hserver Henv). }
  specialize (Hbody (js_strict_eq env Environment.SERVER) t1 eq_refl).
  destruct (quit_body w closeWindow isCompleted message showOK _ t1)
    as [[[]|e'] t2]; simpl in Hbody |- *.
  - split.
    + intros _ Henv. specialize (Hserver Henv). injection Hserver as ->.
      destruct Hbody as [[_ Hthrow]|[[=] _]]. by destruct Hthrow.
    + intros Hc. destruct Hbody as [[Hsame _]|[[=] _]]. by destruct Hc.
  - split; [intros _ _; split; [eauto | reflexivity]|].
    intros Hc. destruct Hbody as [[Hsame _]|[[= ->] Hlast]];
      [by destruct Hc|].
    split; [reflexivity|]. split; [reflexivity | exact Hlast].
Qed.

End Termination.

(** *** The status table *)

Section StatusTable.
Context (w : World).

(** With [showOK], the body of [quit] assigns no status. *)
Lemma status_quit_body v closeWindow isCompleted message isServerEnv :
  inv (status_is v)
    (quit_body w closeWindow isCompleted message true isServerEnv).
Proof.
  unfold_methods. inv_steps no_special;
    intros; unfold status_is in *; assumption.
Qed.

End StatusTable.

(** C9.  [Status.STOPPED] and [Status.FINISHED] are the same symbol:
    every strict comparison against one gives the result of the
    comparison against the other, assigning one is assigning the other,
    and a [quit] that has returned before the participant presses OK
    (the status it assigned is [STOPPED]) is in status [FINISHED]. *)
Theorem stopped_is_finished :
  Status.STOPPED = Status.FINISHED /\
  (forall v, js_strict_eq v Status.STOPPED = js_strict_eq v Status.FINISHED) /\
  (forall t, with_status Status.STOPPED t = with_status Status.FINISHED t) /\
  (forall w t closeWindow isCompleted message,
     let r := quit w closeWindow isCompleted message true t in
     r.1 = Ret tt ->
     _status r.2 = Status.FINISHED /\
     js_strict_eq (_status r.2) Status.STOPPED = true).
Proof.
  split; [reflexivity|]. split; [reflexivity|]. split; [reflexivity|].
  intros w t closeWindow isCompleted message r. subst r.
  unfold quit. run.
  destruct (_experiment t) as [h|]; [|discriminate].
  set (t1 := with_status Status.STOPPED _).
  pose proof (getEnvironment_state t1) as Hst.
  destruct (getEnvironment t1) as [[env|e0] t1']; simpl in Hst; subst t1';
    [|discriminate].
  pose proof (status_quit_body w Status.FINISHED closeWindow isCompleted
                message (js_strict_eq env Environment.SERVER) t1 eq_refl)
    as Hinv.
  unfold status_is in Hinv.
  destruct (quit_body w closeWindow isCompleted message true _ t1)
    as [[[]|e'] t2]; simpl in Hinv |- *; [|discriminate].
  intros _. rewrite Hinv. split; reflexivity.
Qed.

(** C9 at the end of a completed run on the server. *)
Lemma stopped_is_finished_witness :
  (quit (server_world modern_config) true true JUndefined true
     (started (server_world modern_config))).1 = Ret tt /\
  _status (quit (server_world modern_config) true true JUndefined true
             (started (server_world modern_config))).2 = Status.FINISHED /\
  js_strict_eq
    (_status (quit (server_world modern_config) true true JUndefined true
                (started (server_world modern_config))).2)
    Status.STOPPED = true.
Proof.
  split; [vm_compute; reflexivity|].
  apply (proj2 (proj2 (proj2 stopped_is_finished))).
  vm_compute; reflexivity.
Defined.

(** Writing a period that is not positive keeps the upload off. *)
Lemma upload_off_set_period p c :
  p <= 0 -> upload_off c -> upload_off (set_period p c).
Proof.
  intros Hp Hoff.
  apply upload_off_shape in Hoff
    as (props & eprops & rprops & p0 & -> & H1 & H2 & H3 & H4 & Hle).
  unfold set_period. simpl. rewrite H1. simpl. rewrite H2. simpl.
  apply upload_off_shape.
  exists (assoc_set "experiment"
            (JObj (assoc_set "resultsUpload"
                     (JObj (assoc_set "period" (JNum p) rprops)) eprops))
            props),
    (assoc_set "resultsUpload"
       (JObj (assoc_set "period" (JNum p) rprops)) eprops),
    (assoc_set "period" (JNum p) rprops), p.
  split; [reflexivity|].
  rewrite !assoc_get_set_eq. rewrite assoc_get_set_ne by done.
  repeat split; assumption.
Qed.

(** The collaborators of [period_world p] never enable the upload when [p <= 0]. *)
Lemma period_world_never_enabled p :
  p <= 0 -> upload_never_enabled (period_world p).
Proof.
  intros Hp c Hc.
  split; [intros ps; simpl; by apply upload_off_set_period|].
  split; [exact Hc|]. split; [exact Hc|]. intros b; exact Hc.
Qed.

(** *** Instances *)

(** C1 as stated fails on a legacy configuration: the pavlovia block is
    missing from the fetched configuration and [_configure] accepts it. *)
Lemma configure_missing_field_counterexample :
  isHost (server_world legacy_config) (_hosts fresh) = true /\
  field_missing legacy_config
    ([], "pavlovia", "missing pavlovia block in configuration") /\
  (_configure (server_world legacy_config) "config.json" "stroop" fresh).1
    = Ret tt /\
  _status (_configure (server_world legacy_config) "config.json" "stroop"
             fresh).2 = Status.CONFIGURED.
Proof. vm_compute. repeat split. Qed.

(** C1, amended, on a configuration without [experiment.name]. *)
Lemma configure_missing_field_witness :
  isHost (server_world nameless_config) (_hosts fresh) = true /\
  field_missing (legacy_update nameless_config)
    (["experiment"], "name",
     "missing name in experiment block in configuration") /\
  (_configure (server_world nameless_config) "config.json" "stroop" fresh).1
    = Throw (JObj [("context",
                    JStr "when configuring PsychoJS for the experiment");
                   ("origin", JStr "PsychoJS.configure");
                   ("error",
                    JStr "missing name in experiment block in configuration")])
  /\
  _status (_configure (server_world nameless_config) "config.json" "stroop"
             fresh).2 = Status.CONFIGURING.
Proof.
  split; [vm_compute; reflexivity|]. split; [vm_compute; reflexivity|].
  destruct (configure_missing_field (server_world nameless_config)
              "config.json" "stroop" fresh
              (JObj [("config", nameless_config)]) nameless_config
              (["experiment"], "name",
               "missing name in experiment block in configuration"))
    as (e & _ & Hf & Hthrow & Hst);
    [ vm_compute; reflexivity | reflexivity | reflexivity
    | repeat constructor | vm_compute; reflexivity | ].
  vm_compute in Hf. injection Hf as <-.
  split; [exact Hthrow | exact Hst].
Defined.

(** C2 as stated fails: on the server, with [closeSession] failing,
    [quit] does not return; it throws the wrapped error with status
    [ERROR], and the call of [closeSession] is its last step. *)
Lemma quit_closeSession_failure_counterexample :
  js_get (_config (started failing_close_world)) "environment"
    = Ret Environment.SERVER /\
  (quit failing_close_world true true JUndefined true
     (started failing_close_world)).1
    = Throw (JObj [("context", JStr "when terminating the experiment");
                   ("origin", JStr "PsychoJS.quit");
                   ("error", JStr "network error")]) /\
  (quit failing_close_world true true JUndefined true
     (started failing_close_world)).1 <> Ret tt /\
  _status (quit failing_close_world true true JUndefined true
             (started failing_close_world)).2 = Status.ERROR /\
  last (events (quit failing_close_world true true JUndefined true
                  (started failing_close_world)).2)
    = Some (EvCloseSession true).
Proof. vm_compute. repeat split. discriminate. Qed.

(** C2, amended, at the end of a run on the server. *)
Lemma quit_closeSession_failure_witness :
  (forall c, (closeSession failing_close_world true c).1
             = Throw (JStr "network error")) /\
  (quit failing_close_world true true JUndefined true
     (started failing_close_world)).1
    = Throw (JObj [("context", JStr "when terminating the experiment");
                   ("origin", JStr "PsychoJS.quit");
                   ("error", JStr "network error")]) /\
  _status (quit failing_close_world true true JUndefined true
             (started failing_close_world)).2 = Status.ERROR /\
  last (events (quit failing_close_world true true JUndefined true
                  (started failing_close_world)).2)
    = Some (EvCloseSession true).
Proof.
  split; [intros c; reflexivity|].
  apply (quit_closeSession_failure failing_close_world
           (started failing_close_world) true true JUndefined true
           (JStr "network error")).
  - intros c; reflexivity.
  - vm_compute. discriminate.
Defined.

(** C3 as stated fails on a valid response that also carries the legacy
    block: the pavlovia URL of the internal configuration is not the one
    of the response. *)
Lemma configure_server_roundtrip_counterexample :
  isHost (server_world mixed_config) (_hosts fresh) = true /\
  first_failure mixed_config essential_fields = None /\
  (_configure (server_world mixed_config) "config.json" "stroop" fresh).1
    = Ret tt /\
  js_get_path mixed_config ["pavlovia"; "URL"]
    = Ret (JStr "https://example.org") /\
  js_get_path
    (_config (_configure (server_world mixed_config) "config.json" "stroop"
                fresh).2) ["pavlovia"; "URL"]
    = Ret (JStr "https://pavlovia.org").
Proof. vm_compute. repeat split. Qed.

(** C3, amended, on the modern sample configuration. *)
Lemma configure_server_roundtrip_witness :
  js_in "psychoJsManager" modern_config = Ret false /\
  first_failure modern_config essential_fields = None /\
  (_configure (server_world modern_config) "config.json" "stroop" fresh).1
    = Ret tt /\
  _status (_configure (server_world modern_config) "config.json" "stroop"
             fresh).2 = Status.CONFIGURED /\
  js_get (_config (_configure (server_world modern_config) "config.json"
                     "stroop" fresh).2) "environment"
    = Ret Environment.SERVER /\
  js_get_path (_config (_configure (server_world modern_config) "config.json"
                          "stroop" fresh).2) ["pavlovia"; "URL"]
    = js_get_path modern_config ["pavlovia"; "URL"] /\
  js_get_path (_config (_configure (server_world modern_config) "config.json"
                          "stroop" fresh).2) ["gitlab"; "projectId"]
    = js_get_path modern_config ["gitlab"; "projectId"].
Proof.
  split; [vm_compute; reflexivity|]. split; [vm_compute; reflexivity|].
  apply (configure_server_roundtrip (server_world modern_config)
           "config.json" "stroop" fresh
           (JObj [("config", modern_config)]) modern_config);
    vm_compute; reflexivity.
Defined.

(** C4 as stated fails: a configuration whose URL and project
    identifier are empty strings is accepted with environment [SERVER]. *)
Lemma configure_server_keys_present_counterexample :
  (_configure (server_world empty_values_config) "config.json" "stroop"
     fresh).1 = Ret tt /\
  _status (_configure (server_world empty_values_config) "config.json"
             "stroop" fresh).2 = Status.CONFIGURED /\
  js_get (_config (_configure (server_world empty_values_config)
                     "config.json" "stroop" fresh).2) "environment"
    = Ret Environment.SERVER /\
  js_get_path (_config (_configure (server_world empty_values_config)
                          "config.json" "stroop" fresh).2)
    ["pavlovia"; "URL"] = Ret (JStr "") /\
  js_get_path (_config (_configure (server_world empty_values_config)
                          "config.json" "stroop" fresh).2)
    ["gitlab"; "projectId"] = Ret (JStr "").
Proof. vm_compute. repeat split. Qed.

(** C4, amended, on the configuration with empty values. *)
Lemma configure_server_keys_present_witness :
  isHost (server_world empty_values_config) (_hosts fresh) = true /\
  js_get (_config (_configure (server_world empty_values_config)
                     "config.json" "stroop" fresh).2) "environment"
    = Ret Environment.SERVER /\
  field_test (_config (_configure (server_world empty_values_config)
                         "config.json" "stroop" fresh).2)
    ["pavlovia"] "URL" = Ret true /\
  field_test (_config (_configure (server_world empty_values_config)
                         "config.json" "stroop" fresh).2)
    ["gitlab"] "projectId" = Ret true.
Proof.
  split; [vm_compute; reflexivity|].
  apply (configure_server_keys_present (server_world empty_values_config)
           "config.json" "stroop" fresh
           (JObj [("config", empty_values_config)]) empty_values_config);
    vm_compute; reflexivity.
Defined.

(** C5 on a run whose session sets the upload period to [0]. *)
Lemma upload_timer_never_armed_witness :
  upload_never_enabled (period_world 0) /\
  js_get_path (_config (started (period_world 0)))
    ["experiment"; "resultsUpload"; "period"] = Ret (JNum 0) /\
  List.filter is_timer_event (events (started (period_world 0))) = [] /\
  upload_off (_config (started (period_world 0))).
Proof.
  split; [apply period_world_never_enabled; lia|].
  split; [vm_compute; reflexivity|].
  destruct (upload_timer_never_armed (period_world 0)
              (period_world_never_enabled 0 ltac:(lia)))
    as (Hstart & _ & _).
  destruct (Hstart "config.json" "stroop" JUndefined fresh) as [Hev Hoff].
  split; [exact Hev | apply Hoff; vm_compute; reflexivity].
Defined.

(** C6 on a query with a repeated key and a plain parameter. *)
Lemma serverMsg_populated_once_witness :
  (_configure smoke_test_world "config.json" "stroop" fresh).1 = Ret tt /\
  _serverMsg (_configure smoke_test_world "config.json" "stroop" fresh).2
    = Some (server_parameters (getUrlParameters smoke_test_world)) /\
  server_parameters (getUrlParameters smoke_test_world) !! "__pilotToken"
    = Some "xyz" /\
  server_parameters (getUrlParameters smoke_test_world) !! "__noOutput"
    = Some "" /\
  server_parameters (getUrlParameters smoke_test_world) !! "participant"
    = None.
Proof.
  destruct (serverMsg_populated_once smoke_test_world)
    as (Hlookup & Hconf & _).
  split; [vm_compute; reflexivity|].
  split; [apply Hconf; vm_compute; reflexivity|].
  rewrite !Hlookup. repeat split.
Defined.

(** C7 on a run launched with [__noOutput]. *)
Lemma noOutput_suppresses_saving_witness :
  (exists value, In ("__noOutput", value) (getUrlParameters smoke_test_world))
  /\
  _saveResults (started smoke_test_world) = false /\
  List.filter is_output_event
    (events (quit smoke_test_world true true JUndefined false
               (started smoke_test_world)).2) = [].
Proof.
  assert (Hpar : exists value,
             In ("__noOutput", value) (getUrlParameters smoke_test_world)).
  { exists "". simpl. auto. }
  split; [exact Hpar|].
  destruct (noOutput_suppresses_saving smoke_test_world Hpar)
    as (_ & Hstart & Hquit & _).
  assert (Hs : _saveResults (started smoke_test_world) = false).
  { apply Hstart. vm_compute; reflexivity. }
  split; [exact Hs|].
  destruct (Hquit (started smoke_test_world) true true JUndefined false Hs)
    as [_ Hev].
  rewrite Hev. vm_compute; reflexivity.
Defined.

(** C8 on a run from a local web server. *)
Lemma configure_local_run_witness :
  isHost local_world (_hosts fresh) = false /\
  (_configure local_world "config.json" "stroop" fresh).1 = Ret tt /\
  _status (_configure local_world "config.json" "stroop" fresh).2
    = Status.CONFIGURED /\
  _config (_configure local_world "config.json" "stroop" fresh).2 =
    JObj [("environment", Environment.LOCAL);
          ("experiment",
           JObj [("keys", JArr []);
                 ("name", JStr "stroop");
                 ("saveFormat", SaveFormat.CSV);
                 ("saveIncompleteResults", JBool true);
                 ("resultsUpload",
                  JObj [("intervalId", JNum (-1)); ("period", JNum (-1))])])]
  /\
  events (_configure local_world "config.json" "stroop" fresh).2
    = events fresh.
Proof.
  split; [vm_compute; reflexivity|].
  apply (configure_local_run local_world "config.json" "stroop" fresh).
  vm_compute; reflexivity.
Defined.

(** C10 on the legacy sample configuration. *)
Lemma configure_legacy_witness :
  js_in "psychoJsManager" legacy_config = Ret true /\
  _configure (server_world legacy_config) "config.json" "stroop" fresh =
  _configure
    (with_getConfiguration (server_world legacy_config)
       (Ret (JObj [("config", legacy_update legacy_config)])))
    "config.json" "stroop" fresh /\
  js_get (_config (_configure (server_world legacy_config) "config.json"
                     "stroop" fresh).2) "environment"
    = Ret Environment.SERVER /\
  js_get_path (_config (_configure (server_world legacy_config) "config.json"
                          "stroop" fresh).2) ["pavlovia"; "URL"]
    = Ret (JStr "https://pavlovia.org").
Proof.
  split; [vm_compute; reflexivity|].
  destruct (configure_legacy (server_world legacy_config) "config.json"
              "stroop" fresh (JObj [("config", legacy_config)]) legacy_config)
    as (_ & _ & _ & _ & _ & Hsame & Hvalid);
    [vm_compute; reflexivity | reflexivity | reflexivity
    | vm_compute; reflexivity |].
  split; [exact Hsame|].
  destruct Hvalid as (_ & _ & Henv & Hurl & _); [vm_compute; reflexivity|].
  split; [exact Henv | exact Hurl].
Defined.

(* ================================================================== *)
(** ** Further properties *)
(* ================================================================== *)

(** *** Symbolic execution of methods *)

Lemma wp_bind {A B} (m : M A) (f : A -> M B) Q t :
  wp m (fun o t' => match o with
                    | Ret a => wp (f a) Q t'
                    | Throw e => Q (Throw e) t'
                    end) t ->
  wp (bind m f) Q t.
Proof. unfold wp, bind. by destruct (m t) as [[a|e] t']. Qed.

Lemma wp_try_catch {A} (m : M A) (h : JsVal -> M A) Q t :
  wp m (fun o t' => match o with
                    | Ret a => Q (Ret a) t'
                    | Throw e => wp (h e) Q t'
                    end) t ->
  wp (try_catch m h) Q t.
Proof. unfold wp, try_catch. by destruct (m t) as [[a|e] t']. Qed.

Lemma wp_ret {A} (a : A) (Q : Outcome A -> PsychoJS -> Prop) t :
  Q (Ret a) t -> wp (ret a) Q t.
Proof. done. Qed.

Lemma wp_throw {A} e (Q : Outcome A -> PsychoJS -> Prop) t :
  Q (Throw e) t -> wp (throw e) Q t.
Proof. done. Qed.

Lemma wp_lift {A} (o : Outcome A) (Q : Outcome A -> PsychoJS -> Prop) t :
  Q o t -> wp (lift o) Q t.
Proof. done. Qed.

Lemma wp_gets {A} (p : PsychoJS -> A) (Q : Outcome A -> PsychoJS -> Prop)
  t : Q (Ret (p t)) t -> wp (gets p) Q t.
Proof. done. Qed.

Lemma wp_modify (g : PsychoJS -> PsychoJS)
  (Q : Outcome unit -> PsychoJS -> Prop) t :
  Q (Ret tt) (g t) -> wp (modify g) Q t.
Proof. done. Qed.

Lemma wp_emit e (Q : Outcome unit -> PsychoJS -> Prop) t :
  Q (Ret tt) (with_event e t) -> wp (emit e) Q t.
Proof. done. Qed.

Lemma wp_when (c : bool) m (Q : Outcome unit -> PsychoJS -> Prop) t :
  (if c then wp m Q t else Q (Ret tt) t) -> wp (when c m) Q t.
Proof. by destruct c. Qed.

Lemma wp_config_read path (Q : Outcome JsVal -> PsychoJS -> Prop) t :
  Q (js_get_path (_config t) path) t -> wp (config_read path) Q t.
Proof. done. Qed.

Lemma wp_config_update path f (Q : Outcome unit -> PsychoJS -> Prop) t :
  match js_update_path (_config t) path f with
  | Ret c => Q (Ret tt) (with_config c t)
  | Throw e => Q (Throw e) t
  end ->
  wp (config_update path f) Q t.
Proof.
  unfold wp, config_update. by destruct (js_update_path (_config t) path f).
Qed.

Lemma wp_external call (Q : Outcome unit -> PsychoJS -> Prop) t :
  Q (call (_config t)).1 (with_config (call (_config t)).2 t) ->
  wp (external call) Q t.
Proof. unfold wp, external. by destruct (call (_config t)). Qed.

Lemma wp_serverMsg_has key (Q : Outcome bool -> PsychoJS -> Prop) t m :
  _serverMsg t = Some m ->
  Q (Ret (bool_decide (is_Some (m !! key)))) t -> wp (serverMsg_has key) Q t.
Proof. intros Hm. unfold wp, serverMsg_has. by rewrite Hm. Qed.

Lemma wp_serverMsg_get key (Q : Outcome JsVal -> PsychoJS -> Prop) t m :
  _serverMsg t = Some m ->
  Q (Ret (from_option JStr JUndefined (m !! key))) t ->
  wp (serverMsg_get key) Q t.
Proof. intros Hm. unfold wp, serverMsg_get. by rewrite Hm. Qed.

(** A part of a method that is known to keep [J]. *)
Lemma wp_inv {A} (J : PsychoJS -> Prop) (m : M A)
  (Q : Outcome A -> PsychoJS -> Prop) t :
  inv J m -> J t -> (forall o t', J t' -> Q o t') -> wp m Q t.
Proof. intros Hm Ht HQ. apply HQ, Hm, Ht. Qed.

(** One step of symbolic execution. *)
Ltac wp_step :=
  lazymatch goal with
  | |- wp (bind _ _) _ _ => apply wp_bind
  | |- wp (try_catch _ _) _ _ => apply wp_try_catch
  | |- wp (ret _) _ _ => apply wp_ret
  | |- wp (throw _) _ _ => apply wp_throw
  | |- wp (lift _) _ _ => apply wp_lift
  | |- wp (gets _) _ _ => apply wp_gets
  | |- wp (emit _) _ _ => apply wp_emit
  | |- wp (modify _) _ _ => apply wp_modify
  | |- wp (when _ _) _ _ => apply wp_when
  | |- wp (config_read _) _ _ => apply wp_config_read
  | |- wp (config_update _ _) _ _ => apply wp_config_update
  | |- wp (external _) _ _ => apply wp_external
  end.

(** *** The constructor and the approved hosts *)

Lemma array_from_set_spec seen l x :
  x ∈ array_from_set seen l <-> x ∈ l /\ x ∉ seen.
Proof.
  revert seen. induction l as [|y l IH]; intros seen; simpl.
  - rewrite elem_of_nil. tauto.
  - destruct (existsb (String.eqb y) seen) eqn:E.
    + apply existsb_exists in E as (z & Hz & Hyz).
      apply String.eqb_eq in Hyz. subst z.
      apply list_elem_of_In in Hz.
      rewrite IH, elem_of_cons. split; [tauto|].
      intros [[->|H] Hn]; [done | tauto].
    + assert (Hy : y ∉ seen).
      { intros Hy. apply list_elem_of_In in Hy.
        assert (existsb (String.eqb y) seen = true); [|congruence].
        apply existsb_exists. exists y. split; [done|].
        apply String.eqb_refl. }
      rewrite !elem_of_cons, IH, elem_of_cons. split.
      * intros [->|[H Hn]]; [tauto|]. split; [tauto|]. tauto.
      * intros [[->|H] Hn]; [tauto|].
        destruct (decide (x = y)) as [->|Hne]; [tauto|]. right. tauto.
Qed.

Lemma array_from_set_NoDup seen l : NoDup (array_from_set seen l).
Proof.
  revert seen. induction l as [|y l IH]; intros seen; simpl.
  - constructor.
  - destruct (existsb (String.eqb y) seen); [apply IH|].
    constructor; [|apply IH].
    rewrite array_from_set_spec, elem_of_cons. tauto.
Qed.

Lemma new_PsychoJS_hosts o url :
  url ∈ _hosts (new_PsychoJS o) <->
  url ∈ ["https://devlovia.org/run/"; "https://pavlovia.org/run/";
         "https://run.devlovia.org/"; "https://run.pavlovia.org/"] \/
  url ∈ opt_hosts o.
Proof.
  unfold new_PsychoJS. cbn [_hosts].
  rewrite array_from_set_spec, elem_of_app, elem_of_nil. tauto.
Qed.

(** X1.  The approved hosts of a new instance are the four servers of
    the library and the hosts given in the options, and no host is
    listed twice. *)
Theorem constructor_hosts o :
  NoDup (_hosts (new_PsychoJS o)) /\
  (forall url,
     url ∈ _hosts (new_PsychoJS o) <->
     url ∈ ["https://devlovia.org/run/"; "https://pavlovia.org/run/";
            "https://run.devlovia.org/"; "https://run.pavlovia.org/"] \/
     url ∈ opt_hosts o).
Proof.
  split; [apply array_from_set_NoDup | apply new_PsychoJS_hosts].
Qed.

Lemma isHost_spec (w : World) hosts :
  isHost w hosts = true <->
  exists url, url ∈ hosts /\ String.prefix url (location_href w) = true.
Proof.
  unfold isHost. rewrite existsb_exists. split.
  - intros (url & Hin & Hp). exists url. rewrite <- js_indexOf_prefix.
    split; [by apply list_elem_of_In | done].
  - intros (url & Hin & Hp). exists url. rewrite js_indexOf_prefix.
    split; [by apply list_elem_of_In | done].
Qed.

Lemma prefix_empty s : String.prefix "" s = true.
Proof. by destruct s. Qed.

(** X2.  The test of [_configure] for a run on the server succeeds
    exactly when the address of the page starts with one of the four
    servers of the library or with a host given in the options; an empty
    string among the hosts of the options approves every address. *)
Theorem approved_host_test (w : World) o :
  (isHost w (_hosts (new_PsychoJS o)) = true <->
   exists url,
     (url ∈ ["https://devlovia.org/run/"; "https://pavlovia.org/run/";
             "https://run.devlovia.org/"; "https://run.pavlovia.org/"] \/
      url ∈ opt_hosts o) /\
     String.prefix url (location_href w) = true) /\
  ("" ∈ opt_hosts o -> isHost w (_hosts (new_PsychoJS o)) = true).
Proof.
  assert (Hiff : isHost w (_hosts (new_PsychoJS o)) = true <->
   exists url,
     (url ∈ ["https://devlovia.org/run/"; "https://pavlovia.org/run/";
             "https://run.devlovia.org/"; "https://run.pavlovia.org/"] \/
      url ∈ opt_hosts o) /\
     String.prefix url (location_href w) = true).
  { rewrite isHost_spec. split; intros (url & Hin & Hp); exists url;
      (split; [by apply new_PsychoJS_hosts | done]). }
  split; [exact Hiff|].
  intros Hempty. apply Hiff. exists "". split; [by right|].
  apply prefix_empty.
Qed.

(** *** Outcomes of [_configure] *)

Section ConfigureOutcomes.
Context (w : World).

(** A [_configure] that returns ran one of its two branches to the
    end. *)
Lemma configure_ok_cases configURL name t :
  (_configure w configURL name t).1 = Ret tt ->
  (isHost w (_hosts t) = true /\
   exists props eprops,
     (_configure w configURL name t).2 =
     configured w
       (configured_config (assoc_set "environment" Environment.SERVER props)
          eprops)
       (with_event (EvGetConfiguration configURL)
          (with_status Status.CONFIGURING t))) \/
  (isHost w (_hosts t) = false /\
   (_configure w configURL name t).2 =
   configured w
     (JObj [("environment", Environment.LOCAL);
            ("experiment",
             JObj [("keys", JArr []);
                   ("name", JStr name);
                   ("saveFormat", SaveFormat.CSV);
                   ("saveIncompleteResults", JBool true);
                   ("resultsUpload", initial_resultsUpload)])])
     (with_status Status.CONFIGURING t)).
Proof.
  intros Hok. destruct (isHost w (_hosts t)) eqn:Hhost.
  - left. split; [done|].
    destruct (getConfiguration w configURL) as [resp|e] eqn:Hresp.
    2:{ rewrite (configure_fetch_fail w _ _ _ _ Hhost Hresp) in Hok.
        discriminate. }
    destruct (js_get resp "config") as [cfg|e] eqn:Hcfg.
    2:{ rewrite (configure_response_fail w _ _ _ _ _ Hhost Hresp Hcfg) in Hok.
        discriminate. }
    destruct (first_failure (legacy_update cfg) essential_fields)
      as [e|] eqn:Hf.
    { rewrite (configure_server_fail w _ _ _ _ _ _ Hhost Hresp Hcfg Hf) in Hok.
      discriminate. }
    destruct (configure_server_ok w configURL name _ _ t Hhost Hresp Hcfg Hf)
      as (props & eprops & _ & _ & ->).
    eauto.
  - right. split; [done|]. by rewrite (configure_local w _ _ _ Hhost).
Qed.

(** A [_configure] that throws has stopped before the end of the branch
    of an approved host. *)
Lemma configure_throw_cases configURL name t e :
  (_configure w configURL name t).1 = Throw e ->
  isHost w (_hosts t) = true /\
  exists error cfg,
    e = with_error configure_context configure_origin error /\
    (_configure w configURL name t).2 =
    with_config cfg
      (with_event (EvGetConfiguration configURL)
         (with_status Status.CONFIGURING t)).
Proof.
  intros Hthrow. destruct (isHost w (_hosts t)) eqn:Hhost.
  2:{ rewrite (configure_local w _ _ _ Hhost) in Hthrow. discriminate. }
  split; [done|].
  destruct (getConfiguration w configURL) as [resp|e0] eqn:Hresp.
  2:{ rewrite (configure_fetch_fail w _ _ _ _ Hhost Hresp) in Hthrow |- *.
      injection Hthrow as <-. exists e0, (_config t). split; [done|].
      cbn [snd]. by destruct t. }
  destruct (js_get resp "config") as [cfg|e0] eqn:Hcfg.
  2:{ rewrite (configure_response_fail w _ _ _ _ _ Hhost Hresp Hcfg)
        in Hthrow |- *.
      injection Hthrow as <-. exists e0, (_config t). split; [done|].
      cbn [snd]. by destruct t. }
  destruct (first_failure (legacy_update cfg) essential_fields)
    as [e0|] eqn:Hf.
  - rewrite (configure_server_fail w _ _ _ _ _ _ Hhost Hresp Hcfg Hf)
      in Hthrow |- *.
    injection Hthrow as <-. by exists e0, (legacy_update cfg).
  - destruct (configure_server_ok w configURL name _ _ t Hhost Hresp Hcfg Hf)
      as (props & eprops & _ & _ & Heq).
    rewrite Heq in Hthrow. discriminate.
Qed.

(** X4.  A [_configure] that throws was on an approved host; it throws
    an object with the context and the origin of [_configure] around the
    error, leaves the status [CONFIGURING], and has changed neither the
    message board, the save-results flag nor the experiment handler; its
    one call was [getConfiguration]. *)
Theorem configure_failure_frame configURL name t e :
  let r := _configure w configURL name t in
  r.1 = Throw e ->
  isHost w (_hosts t) = true /\
  (exists error,
     e = JObj [("context",
                JStr "when configuring PsychoJS for the experiment");
               ("origin", JStr "PsychoJS.configure");
               ("error", error)]) /\
  _status r.2 = Status.CONFIGURING /\
  _serverMsg r.2 = _serverMsg t /\
  _saveResults r.2 = _saveResults t /\
  _experiment r.2 = _experiment t /\
  events r.2 = (events t ++ [EvGetConfiguration configURL])%list.
Proof.
  intros r Hthrow. subst r.
  destruct (configure_throw_cases _ _ _ _ Hthrow)
    as (Hhost & error & cfg & -> & ->).
  split; [done|]. split; [by exists error|]. done.
Qed.

(** X3.  [getEnvironment] returns [undefined] while there is no
    configuration and leaves the instance as it is; after a successful
    [_configure] it returns [SERVER] when the page is on an approved host
    and [LOCAL] otherwise. *)
Theorem getEnvironment_after_configure configURL name t :
  (_config t = JUndefined -> getEnvironment t = (Ret JUndefined, t)) /\
  (let r := _configure w configURL name t in
   r.1 = Ret tt ->
   getEnvironment r.2 =
   (Ret (if isHost w (_hosts t) then Environment.SERVER
         else Environment.LOCAL), r.2)).
Proof.
  split.
  - intros Hc. unfold getEnvironment, bind, gets, ret. by rewrite Hc.
  - intros r Hok. subst r.
    destruct (configure_ok_cases _ _ _ Hok)
      as [(Hhost & props & eprops & ->)|(Hhost & ->)]; rewrite Hhost.
    + unfold getEnvironment, bind, gets, lift.
      match goal with |- context [configured w ?c ?s] =>
        destruct (configured_fields w c s) as (-> & _) end.
      rewrite configured_get_environment. reflexivity.
    + unfold getEnvironment, bind, gets, lift.
      match goal with |- context [configured w ?c ?s] =>
        destruct (configured_fields w c s) as (-> & _) end.
      reflexivity.
Qed.

End ConfigureOutcomes.

(** *** The window and the redirection *)

(** X5.  [openWindow] creates the window when there is none; with a
    window it throws and changes nothing, so a second call in a row
    always throws. *)
Theorem openWindow_once t :
  (_window t = false ->
   (openWindow t).1 = Ret tt /\
   _window (openWindow t).2 = true /\
   events (openWindow t).2 = (events t ++ [EvNewWindow])%list) /\
  (_window t = true ->
   openWindow t =
   (Throw (JObj [("context", JStr "when opening a Window");
                 ("error", JStr "A Window has already been opened.");
                 ("origin", JStr "PsychoJS.openWindow")]), t)) /\
  (openWindow (openWindow t).2).1 =
    Throw (JObj [("context", JStr "when opening a Window");
                 ("error", JStr "A Window has already been opened.");
                 ("origin", JStr "PsychoJS.openWindow")]).
Proof.
  unfold openWindow, bind, gets, throw, emit, modify.
  destruct (_window t) eqn:Hw; cbn; rewrite ?Hw; repeat split; done.
Qed.

(** X14.  After [setRedirectUrls], the closure [onTerminate] of [quit]
    on an instance with a window closes the window if asked, leaves
    full screen, sets the status [FINISHED] and redirects to the
    completion URL of a completed run or to the cancellation URL of the
    others, unless that URL is [undefined]; without a window it throws a
    [TypeError] before the status is set and nothing is called. *)
Theorem onTerminate_redirect t closeWindow isCompleted completionUrl
  cancellationUrl :
  let t0 := (setRedirectUrls completionUrl cancellationUrl t).2 in
  let r := onTerminate closeWindow isCompleted t0 in
  let url := if isCompleted then completionUrl else cancellationUrl in
  (_window t = true ->
   r.1 = Ret tt /\
   _status r.2 = Status.FINISHED /\
   events r.2 =
     (events t
      ++ (if closeWindow then [EvWindowClose; EvRemoveBodyChildren] else [])
      ++ [EvCloseFullScreen]
      ++ (if js_strict_eq url JUndefined then [] else [EvRedirect url]))%list)
  /\
  (_window t = false ->
   r.1 = Throw JTypeError /\ _status r.2 = _status t /\
   events r.2 = events t).
Proof.
  intros t0 r url. subst t0 r url.
  unfold onTerminate, setRedirectUrls, window_call, when, bind, gets, modify,
    emit, throw, ret.
  split; intros Hw.
  - destruct closeWindow, isCompleted; simpl; rewrite ?Hw; simpl;
      rewrite ?Hw; simpl;
      try destruct (js_strict_eq completionUrl JUndefined);
      try destruct (js_strict_eq cancellationUrl JUndefined);
      simpl; rewrite <- ?app_assoc; repeat split; reflexivity.
  - destruct closeWindow; simpl; rewrite ?Hw; repeat split; reflexivity.
Qed.

(** *** [start] *)

(** Reduction of the field reads in a goal. *)
Ltac fields :=
  cbv beta iota zeta;
  cbn [fst snd _hosts _collectIP _autoStartScheduler _checkWebGLSupport
       _status _config _serverMsg _saveResults _IP _experiment _window
       _surveyId _completionUrl _cancellationUrl beforeunloadCallback events
       with_status with_config with_serverMsg with_saveResults with_IP
       with_experiment with_window with_surveyId with_redirectUrls
       with_beforeunloadCallback with_event id].

Section Start.
Context (w : World).

(** X6.  When [_configure] throws, [start] throws the error of
    [_configure] wrapped once more with its own context and origin, sets
    the status [ERROR], creates no experiment handler and calls nothing
    after [getConfiguration]; a [quit] after it, there being no
    experiment handler, throws a bare [TypeError] and changes nothing. *)
Theorem start_wraps_configure_error configURL expName surveyId t e :
  (_configure w configURL expName t).1 = Throw e ->
  let r := start w configURL expName surveyId t in
  (exists error,
     r.1 = Throw
       (JObj [("context", JStr "when starting the experiment");
              ("origin", JStr "PsychoJS.start");
              ("error",
               JObj [("context",
                      JStr "when configuring PsychoJS for the experiment");
                     ("origin", JStr "PsychoJS.configure");
                     ("error", error)])])) /\
  _status r.2 = Status.ERROR /\
  _experiment r.2 = _experiment t /\
  events r.2 = (events t ++ [EvGetConfiguration configURL])%list /\
  (_experiment t = None ->
   forall closeWindow isCompleted message showOK,
     quit w closeWindow isCompleted message showOK r.2 =
     (Throw JTypeError, r.2)).
Proof.
  intros Hthrow r. subst r.
  destruct (configure_throw_cases w _ _ _ _ Hthrow)
    as (_ & error & cfg & -> & Hst).
  unfold start, start_body, try_catch, bind.
  destruct (_configure w configURL expName t) as [o t1].
  simpl in Hthrow, Hst. subst o t1. simpl.
  split; [by exists error|]. do 3 (split; [reflexivity|]).
  intros He ? ? ? ?. unfold quit, bind, gets, throw. simpl. by rewrite He.
Qed.

(** The state after a successful [_configure], field by field. *)
Lemma configure_ok_fields configURL name t :
  (_configure w configURL name t).1 = Ret tt ->
  _status (_configure w configURL name t).2 = Status.CONFIGURED /\
  options_of (_configure w configURL name t).2 = options_of t /\
  _experiment (_configure w configURL name t).2 = _experiment t /\
  _window (_configure w configURL name t).2 = _window t /\
  beforeunloadCallback (_configure w configURL name t).2 =
    beforeunloadCallback t.
Proof.
  intros Hok.
  destruct (configure_ok_cases w _ _ _ Hok)
    as [(_ & props & eprops & ->)|(_ & ->)];
    unfold configured; destruct (noOutput _); done.
Qed.

Ltac like_leaf :=
  intros; unfold configured_like in *;
  match goal with H : _ /\ _ |- _ => destruct H end;
  split; assumption.

Lemma configured_like_start_on_server t surveyId :
  inv (configured_like t) (start_on_server w surveyId).
Proof. unfold_methods. inv_steps no_special; like_leaf. Qed.

(** X8.  A [start] that returns leaves the status [STARTED] when the
    scheduler is started automatically and the WebGL check is off or
    passes, and [CONFIGURED] otherwise. *)
Theorem start_final_status_spec configURL expName surveyId t :
  (start w configURL expName surveyId t).1 = Ret tt ->
  _status (start w configURL expName surveyId t).2 = start_final_status w t.
Proof.
  pose proof (configure_ok_fields configURL expName t) as Hconf.
  assert (Hafter : post (configured_like t)
            (fun o t' => o = Ret tt -> _status t' = start_final_status w t)
            (start_after_configure w surveyId)).
  { unfold start_after_configure.
    do 7 (apply post_bind;
          [ first [ apply configured_like_start_on_server
                  | unfold_methods; inv_steps no_special; like_leaf ]
          | intros; discriminate
          | intros ? ]).
    intros t' [Hs Ho]. unfold options_of in Ho.
    injection Ho as _ _ Hauto Hcheck.
    unfold start_final_status, bind, gets, when, emit, modify, ret.
    rewrite Hcheck.
    destruct (_checkWebGLSupport t && negb (Window_checkWebGLSupport w));
      simpl; [done|].
    rewrite Hauto. destruct (_autoStartScheduler t); simpl; done. }
  unfold start, start_body, try_catch, bind.
  destruct (_configure w configURL expName t) as [[[]|e] t1]; simpl in *;
    [|discriminate].
  destruct (Hconf eq_refl) as (Hs & Ho & _).
  specialize (Hafter t1 (conj Hs Ho)).
  destruct (start_after_configure w surveyId t1) as [[[]|e] t2];
    simpl in *; [auto | discriminate].
Qed.

End Start.

(** Evaluation of the operations on values that have concrete
    arguments. *)
Ltac js_eval :=
  cbn [js_get js_get_path js_in js_set js_delete js_strict_eq
       js_truthy js_gt_zero js_to_number js_times assoc_get assoc_set
       assoc_del assoc_has default from_option String.eqb Ascii.eqb Bool.eqb
       negb andb orb Environment.SERVER Environment.LOCAL Symbol_for
       initial_resultsUpload].

Lemma bool_decide_is_Some_Some {A} (x : A) :
  bool_decide (is_Some (Some x)) = true.
Proof. apply bool_decide_eq_true_2. eauto. Qed.

Lemma bool_decide_is_Some_None {A} :
  bool_decide (is_Some (@None A)) = false.
Proof. apply bool_decide_eq_false_2. by intros [? [=]]. Qed.

(** Symbolic execution; [norm] rewrites with the facts at hand after
    each step, before a condition is split. *)
Ltac wp_go_with norm :=
  fields; norm; js_eval; norm;
  repeat (first
    [ wp_step
    | lazymatch goal with
      | |- wp (serverMsg_has _) _ _ =>
          eapply wp_serverMsg_has; [reflexivity|]
      | |- wp (serverMsg_get _) _ _ =>
          eapply wp_serverMsg_get; [reflexivity|]
      | |- wp (if ?c then _ else _) _ _ => destruct c eqn:?
      | |- if ?c then _ else _ => destruct c eqn:?
      end ];
    fields; norm; js_eval; norm).

Ltac wp_go := wp_go_with idtac.

Section StartTraces.
Context (w : World).

(** [start] from the state in which [_configure] has returned. *)
Lemma wp_start configURL expName surveyId t t1
  (Q : Outcome unit -> PsychoJS -> Prop) :
  _configure w configURL expName t = (Ret tt, t1) ->
  wp (start_after_configure w surveyId)
     (fun o t' =>
        match o with
        | Ret a => Q (Ret a) t'
        | Throw e =>
            Q (Throw (with_error "when starting the experiment"
                        "PsychoJS.start" e))
              (with_status Status.ERROR t')
        end) t1 ->
  wp (start w configURL expName surveyId) Q t.
Proof.
  intros Hc. unfold wp, start, start_body, try_catch, bind. rewrite Hc.
  by destruct (start_after_configure w surveyId t1) as [[a|e] t'].
Qed.

(** X7.  Off the approved hosts [start] always returns: it fetches no
    configuration, opens no session and registers no listener; it
    creates the experiment handler, prepares the resources and ends as
    the options and the WebGL support decide. *)
Theorem start_local_run configURL expName surveyId t :
  isHost w (_hosts t) = false ->
  let r := start w configURL expName surveyId t in
  r.1 = Ret tt /\
  events r.2 =
    (events t ++ start_first_events t ++ [EvPrepareResources]
     ++ start_final_events w t)%list /\
  _status r.2 = start_final_status w t /\
  beforeunloadCallback r.2 = beforeunloadCallback t /\
  _experiment r.2 =
    Some {| experimentEnded := false; isCompleted := false |}.
Proof.
  intros Hhost r. subst r.
  apply (wp_start configURL expName surveyId t _
           (fun o t' =>
              o = Ret tt /\
              events t' =
                (events t ++ start_first_events t ++ [EvPrepareResources]
                 ++ start_final_events w t)%list /\
              _status t' = start_final_status w t /\
              beforeunloadCallback t' = beforeunloadCallback t /\
              _experiment t' =
                Some {| experimentEnded := false; isCompleted := false |})
           (configure_local w _ _ _ Hhost)).
  unfold start_final_events, start_final_status, start_first_events.
  unfold configured. destruct (noOutput _);
    unfold start_after_configure, getEnvironment; fields; wp_go;
    rewrite <- ?app_assoc; repeat split; reflexivity.
Qed.

(** The state in which a [_configure] on an approved host returns. *)
Lemma configure_ok_server configURL name t :
  isHost w (_hosts t) = true ->
  (_configure w configURL name t).1 = Ret tt ->
  exists props eprops,
    _configure w configURL name t =
    (Ret tt,
     configured w
       (configured_config (assoc_set "environment" Environment.SERVER props)
          eprops)
       (with_event (EvGetConfiguration configURL)
          (with_status Status.CONFIGURING t))).
Proof.
  intros Hhost Hok.
  destruct (configure_ok_cases w _ _ _ Hok)
    as [(_ & props & eprops & Heq)|(Hloc & _)]; [|congruence].
  exists props, eprops.
  destruct (_configure w configURL name t) as [o s]. simpl in *. by subst.
Qed.

(** X9.  On the server, when [openSession] fails, [start] throws its
    error wrapped with the context and origin of [start] and sets the
    status [ERROR]; the session was asked for with the pilot token of
    the query and the survey identifier, each only if present, and
    nothing was registered or called after it. *)
Theorem start_openSession_failure configURL expName surveyId t e :
  isHost w (_hosts t) = true ->
  (_configure w configURL expName t).1 = Ret tt ->
  (forall params c, (openSession w params c).1 = Throw e) ->
  let r := start w configURL expName surveyId t in
  r.1 = Throw (JObj [("context", JStr "when starting the experiment");
                     ("origin", JStr "PsychoJS.start");
                     ("error", e)]) /\
  _status r.2 = Status.ERROR /\
  events r.2 =
    (events t ++ [EvGetConfiguration configURL] ++ start_first_events t
     ++ [EvOpenSession
           (session_params (server_parameters (getUrlParameters w))
              surveyId)])%list /\
  beforeunloadCallback r.2 = beforeunloadCallback t.
Proof.
  intros Hhost Hok Hopen r. subst r.
  destruct (configure_ok_server _ _ _ Hhost Hok) as (props & eprops & Hconf).
  apply (wp_start configURL expName surveyId t _
           (fun o t' =>
              o = Throw (JObj [("context",
                                JStr "when starting the experiment");
                               ("origin", JStr "PsychoJS.start");
                               ("error", e)]) /\
              _status t' = Status.ERROR /\
              events t' =
                (events t ++ [EvGetConfiguration configURL]
                 ++ start_first_events t
                 ++ [EvOpenSession
                       (session_params
                          (server_parameters (getUrlParameters w))
                          surveyId)])%list /\
              beforeunloadCallback t' = beforeunloadCallback t) Hconf).
  unfold start_first_events, session_params, configured, configured_config.
  set (m := server_parameters (getUrlParameters w)).
  destruct (m !! "__pilotToken") as [token|] eqn:Hpilot;
    destruct (noOutput m);
    destruct (js_strict_eq surveyId JUndefined) eqn:Hsurvey;
    unfold start_after_configure, getEnvironment, start_on_server;
    wp_go_with
      ltac:(rewrite ?assoc_get_set_eq, ?assoc_get_set_ne by done;
            rewrite ?Hpilot, ?Hopen, ?Hsurvey, ?bool_decide_is_Some_Some,
              ?bool_decide_is_Some_None;
            fields; js_eval);
    rewrite <- ?app_assoc; repeat split; reflexivity.
Qed.

End StartTraces.

(** *** The upload timer *)

(** The shape of a configuration whose upload options are an object. *)
Lemma resultsUpload_shape c rprops :
  js_get_path c ["experiment"; "resultsUpload"] = Ret (JObj rprops) ->
  exists props eprops,
    c = JObj props /\
    assoc_get "experiment" props = Some (JObj eprops) /\
    assoc_get "resultsUpload" eprops = Some (JObj rprops).
Proof.
  cbn [js_get_path]. intros H.
  destruct (js_get c "experiment") as [c1|] eqn:H1; [|discriminate].
  destruct (js_get c1 "resultsUpload") as [c2|] eqn:H2; [|discriminate].
  injection H as ->.
  apply js_get_object in H2 as (eprops & -> & H2); [|done..].
  apply js_get_object in H1 as (props & -> & H1); [|done..].
  eauto.
Qed.

Lemma upload_option_read key v c :
  upload_option key v c ->
  js_get_path c ["experiment"; "resultsUpload"; key] = Ret v.
Proof.
  intros (rprops & Hr & Hk).
  apply resultsUpload_shape in Hr as (props & eprops & -> & H1 & H2).
  simpl. rewrite H1. simpl. rewrite H2. simpl. by rewrite Hk.
Qed.

(** An assignment in the upload options, and what is read after it. *)
Lemma upload_option_set key v key0 v0 c :
  upload_option key0 v0 c ->
  exists c',
    js_update_path c ["experiment"; "resultsUpload"]
      (fun r => js_set r key v) = Ret c' /\
    upload_option key v c' /\
    (key0 <> key -> upload_option key0 v0 c').
Proof.
  intros (rprops & Hr & Hk).
  apply resultsUpload_shape in Hr as (props & eprops & -> & H1 & H2).
  eexists. simpl. rewrite H1. simpl. rewrite H2. simpl.
  split; [reflexivity|].
  split.
  - exists (assoc_set key v rprops). simpl. rewrite assoc_get_set_eq. simpl.
    rewrite !assoc_get_set_eq. done.
  - intros Hne. exists (assoc_set key v rprops). simpl.
    rewrite assoc_get_set_eq. simpl. rewrite assoc_get_set_eq.
    split; [done|]. by rewrite assoc_get_set_ne.
Qed.

Ltac events_leaf :=
  intros; unfold timer_events in *;
  cbn [events with_event with_config with_status with_experiment];
  try (rewrite List.filter_app; cbn [List.filter is_timer_event];
       rewrite app_nil_r);
  assumption.

Section UploadTimer.
Context (w : World).


End UploadTimer.

(** Symbolic execution that halts where [stop] recognises the goal. *)
Ltac wp_until stop norm :=
  fields; norm; js_eval; norm;
  repeat (assert_fails stop;
          first
            [ wp_step
            | lazymatch goal with
              | |- wp (serverMsg_has _) _ _ =>
                  eapply wp_serverMsg_has; [reflexivity|]
              | |- wp (serverMsg_get _) _ _ =>
                  eapply wp_serverMsg_get; [reflexivity|]
              | |- wp (if ?c then _ else _) _ _ => destruct c eqn:?
              | |- if ?c then _ else _ => destruct c eqn:?
              end ];
          fields; norm; js_eval; norm).

Ltac at_delete_lastUploadTimestamp :=
  idtac;
  lazymatch goal with
  | |- wp (bind delete_lastUploadTimestamp _) _ _ => idtac
  end.

Section ClearTimer.
Context (w : World).

(** X11.  When the upload options hold a positive timer identifier,
    [quit] clears that timer, once, and touches no other timer, however
    it ends. *)
Theorem quit_clears_upload_timer t closeWindow isCompleted message showOK n :
  is_Some (_experiment t) ->
  upload_option "intervalId" (JNum n) (_config t) ->
  0 < n ->
  let r := quit w closeWindow isCompleted message showOK t in
  List.filter is_timer_event (events r.2) =
    (List.filter is_timer_event (events t) ++ [EvClearInterval (JNum n)])%list.
Proof.
  intros [h Hexp] Hopt Hn r. subst r.
  pose proof (upload_option_read _ _ _ Hopt) as Hread.
  destruct (upload_option_set "intervalId" (JNum (-1)) _ _ _ Hopt)
    as (c' & Hupd & _).
  assert (Hpos : (0 <? n) = true) by (apply Z.ltb_lt; lia).
  assert (Hdef : js_strict_eq (_config t) JUndefined = false).
  { destruct Hopt as (rprops & Hr & _).
    apply resultsUpload_shape in Hr as (props & eprops & -> & _). done. }
  assert (Henv : exists env, js_get (_config t) "environment" = Ret env).
  { destruct Hopt as (rprops & Hr & _).
    apply resultsUpload_shape in Hr as (props & eprops & -> & _).
    simpl. eauto. }
  destruct Henv as [env Henv].
  change (wp (quit w closeWindow isCompleted message showOK)
            (fun _ t' =>
               List.filter is_timer_event (events t') =
               (List.filter is_timer_event (events t)
                ++ [EvClearInterval (JNum n)])%list) t).
  unfold quit, quit_body, getEnvironment, stop_upload_timer.
  apply wp_bind, wp_gets. rewrite Hexp. cbv beta iota.
  wp_until at_delete_lastUploadTimestamp
    ltac:(rewrite ?Hdef, ?Henv, ?Hread, ?Hupd, ?Hpos).
  all: apply (wp_inv (timer_events
                        (List.filter is_timer_event (events t)
                         ++ [EvClearInterval (JNum n)])%list));
    [ apply inv_bind; [|intros ?];
      unfold_methods; inv_steps no_special; events_leaf
    | unfold timer_events; fields;
      rewrite !List.filter_app; cbn [List.filter is_timer_event];
      rewrite ?app_nil_r; reflexivity
    | intros [a|e] t' HJ; [exact HJ | wp_go; exact HJ] ].
Qed.

End ClearTimer.

(** *** Edge cases of [quit] *)

(** A mutation of the upload options leaves the other keys of the
    experiment block as they are. *)
Lemma update_resultsUpload_frame c f c' key :
  js_update_path c ["experiment"; "resultsUpload"] f = Ret c' ->
  key <> "resultsUpload" ->
  js_get_path c' ["experiment"; key] = js_get_path c ["experiment"; key].
Proof.
  intros Hupd Hne. cbn [js_update_path] in Hupd.
  destruct (js_get c "experiment") as [c1|] eqn:H1; [|discriminate].
  destruct (js_get c1 "resultsUpload") as [c2|] eqn:H2; [|discriminate].
  destruct (f c2) as [c2'|]; [|discriminate].
  destruct c1; try discriminate. simpl in Hupd.
  destruct c; try discriminate. simpl in Hupd. injection Hupd as <-.
  simpl in H1. simpl. rewrite assoc_get_set_eq. simpl.
  destruct (assoc_get "experiment" props0) as [x|]; simpl in H1;
    [|discriminate].
  injection H1 as ->. simpl. by rewrite assoc_get_set_ne.
Qed.

Ltac window_leaf := intros; unfold no_window in *; assumption.

Ltac flag_leaf :=
  intros; unfold incomplete_flag in *;
  match goal with H : _ /\ _ |- _ => destruct H as [? ?] end;
  split;
  [ first [ assumption
          | cbn [_config with_config];
            erewrite update_resultsUpload_frame; [eassumption..| done] ]
  | cbn [events with_event with_config];
    try (rewrite List.filter_app; cbn [List.filter is_output_event];
         rewrite app_nil_r);
    assumption ].

Ltac output_events_leaf :=
  intros; unfold output_events in *;
  cbn [events with_event with_config with_status];
  try (rewrite List.filter_app; cbn [List.filter is_output_event];
       rewrite app_nil_r);
  assumption.

Ltac at_close_session :=
  idtac;
  lazymatch goal with
  | |- wp (bind (when _ (bind (emit (EvFinishDialogNextStep
                                       "closing the session")) _)) _) _ _ =>
      idtac
  end.

Section QuitEdges.
Context (w : World).

(** X13.  Without a window, [quit] with [showOK] false never returns:
    it throws, and (past the reads before its [try] block) leaves the
    status [ERROR]. *)
Theorem quit_showOK_false_without_window t closeWindow isCompleted message :
  _window t = false ->
  let r := quit w closeWindow isCompleted message false t in
  (exists e, r.1 = Throw e) /\
  (is_Some (_experiment t) -> _config t <> JNull ->
   _status r.2 = Status.ERROR).
Proof.
  intros Hwin r. subst r.
  assert (Hbody : forall isServerEnv,
            post no_window (fun o _ => o <> Ret tt)
              (quit_body w closeWindow isCompleted message false isServerEnv)).
  { intros isServerEnv. unfold quit_body.
    do 9 (apply post_bind;
          [ unfold_methods; inv_steps no_special; window_leaf
          | intros; discriminate
          | intros ? ]).
    intros t1 Ht1. unfold no_window in Ht1.
    unfold onTerminate, window_call, bind, emit, modify, gets, when, throw.
    destruct t1; simpl in Ht1; subst.
    destruct closeWindow; simpl; discriminate. }
  unfold quit, bind, gets, modify, throw, try_catch.
  destruct (_experiment t) as [h|]; [|split; [eauto | intros [? [=]]]].
  set (t1 := with_status Status.STOPPED _).
  pose proof (getEnvironment_state t1) as Hst.
  assert (Hget : _config t <> JNull -> exists env, (getEnvironment t1).1 = Ret env).
  { intros Hnn. unfold getEnvironment, bind, gets, ret, lift.
    cbn [_config t1 with_status with_experiment].
    destruct (_config t); simpl; eauto. done. }
  destruct (getEnvironment t1) as [[env|e0] t1']; simpl in Hst; subst t1'.
  2:{ split; [eauto|]. intros _ Hnn. destruct (Hget Hnn) as [? [=]]. }
  specialize (Hbody (js_strict_eq env Environment.SERVER) t1 Hwin).
  destruct (quit_body w closeWindow isCompleted message false _ t1)
    as [[[]|e'] t2]; simpl in Hbody |- *; [done|].
  split; [eauto | done].
Qed.

(** X12.  A [quit] of a run that is not completed, with the flag for
    incomplete results not set, saves no results and flushes no logs,
    however it ends. *)
Theorem quit_incomplete_not_saved t closeWindow message showOK v :
  js_get_path (_config t) ["experiment"; "saveIncompleteResults"] = Ret v ->
  js_truthy v = false ->
  let r := quit w closeWindow false message showOK t in
  List.filter is_output_event (events r.2) =
    List.filter is_output_event (events t).
Proof.
  intros Hflag Hfalse r. subst r.
  set (evs := List.filter is_output_event (events t)).
  assert (Hbody : forall isServerEnv,
            post (incomplete_flag v evs) (fun _ t' => output_events evs t')
              (quit_body w closeWindow false message showOK isServerEnv)).
  { intros isServerEnv. unfold quit_body.
    do 6 (apply post_bind;
          [ unfold_methods; inv_steps no_special; flag_leaf
          | intros ? ? [_ ?]; assumption
          | intros ? ]).
    intros t1 [Hf1 He1].
    change (wp (bind (bind (config_read
                              ["experiment"; "saveIncompleteResults"])
                        (fun v => ret (js_truthy v)))
                  (fun wanted =>
                     bind (when wanted
                        (bind (gets _saveResults) (fun saveResults =>
                           when saveResults
                             (bind (emit (EvFinishDialogNextStep
                                            "saving results")) (fun _ =>
                              bind (emit EvExperimentSave) (fun _ =>
                              bind (external (experiment_save w)) (fun _ =>
                              bind (emit (EvFinishDialogNextStep
                                            "saving logs")) (fun _ =>
                              bind (emit EvLoggerFlush) (fun _ =>
                              external (logger_flush w))))))))))
                     (fun _ =>
                      bind (when isServerEnv
                        (bind (emit (EvFinishDialogNextStep
                                       "closing the session")) (fun _ =>
                         bind (emit (EvCloseSession false)) (fun _ =>
                         external (closeSession w false)))))
                      (fun _ =>
                       if showOK then
                         emit (EvDialogMessage
                                 (if negb (js_strict_eq message JUndefined)
                                  then message
                                  else JStr
                                    "Thank you for your patience. Goodbye!"))
                       else
                         bind (emit EvCloseDialog) (fun _ =>
                           onTerminate closeWindow false)))))
              (fun _ t' => output_events evs t') t1).
    wp_until at_close_session ltac:(rewrite ?Hf1, ?Hfalse).
    apply (wp_inv (output_events evs));
      [ apply inv_bind; [|intros ?];
        unfold_methods; inv_steps no_special; output_events_leaf
      | exact He1
      | intros; assumption ]. }
  unfold quit, bind, gets, modify, throw, try_catch.
  destruct (_experiment t) as [h|]; [|reflexivity].
  set (t1 := with_status Status.STOPPED _).
  pose proof (getEnvironment_state t1) as Hst.
  destruct (getEnvironment t1) as [[env|e0] t1']; simpl in Hst; subst t1';
    [|reflexivity].
  specialize (Hbody (js_strict_eq env Environment.SERVER) t1
                (conj Hflag eq_refl)).
  destruct (quit_body w closeWindow false message showOK _ t1)
    as [[[]|e'] t2]; simpl in Hbody |- *; exact Hbody.
Qed.

End QuitEdges.

(** *** Globals *)

Lemma assoc_get_app k l1 l2 :
  assoc_get k (l1 ++ l2) =
  match assoc_get k l1 with
  | Some v => Some v
  | None => assoc_get k l2
  end.
Proof.
  induction l1 as [|[k' v] l1 IH]; simpl; [done|].
  by destruct (String.eqb k k').
Qed.

(** After the assignments, a global holds the last value assigned to it,
    or what it held before. *)
Lemma assign_all_lookup l g k :
  assign_all l g !! k =
  match assoc_get k (rev l) with
  | Some v => Some v
  | None => g !! k
  end.
Proof.
  unfold assign_all. induction l as [|[k' v] l IH] using rev_ind; [done|].
  rewrite foldl_app, rev_unit. simpl.
  destruct (String.eqb k k') eqn:E.
  - apply String.eqb_eq in E as ->. by rewrite lookup_insert_eq.
  - apply String.eqb_neq in E. by rewrite lookup_insert_ne.
Qed.


(** The loop over an object reads each own key once per occurrence, and
    always the value the object holds under it. *)
Lemma for_in_object_lookup props k :
  assoc_get k (rev (for_in (JObj props))) = assoc_get k props.
Proof.
  unfold for_in.
  assert (H : forall ks,
             assoc_get k
               (rev (map (fun k0 => (k0, default JUndefined
                                           (assoc_get k0 props))) ks)) =
             if existsb (String.eqb k) ks
             then Some (default JUndefined (assoc_get k props)) else None).
  { induction ks as [|k' ks IH]; [done|]. simpl.
    rewrite assoc_get_app, IH. simpl.
    destruct (existsb (String.eqb k) ks); simpl.
    - by rewrite orb_true_r.
    - rewrite orb_false_r. destruct (String.eqb k k') eqn:E; [|done].
      by apply String.eqb_eq in E as ->. }
  rewrite H. clear H.
  induction props as [|[k' v] props IH]; [done|]. simpl.
  destruct (String.eqb k k'); [done|]. simpl. exact IH.
Qed.


(** X19.  [_makeStatusTopLevel] makes each of the nine names of the
    status table a global that holds its symbol and leaves the other
    globals as they are; the globals of two names are equal only for the
    same name and for [STOPPED] and [FINISHED]. *)
Theorem makeStatusTopLevel_globals g :
  (forall name,
     _makeStatusTopLevel g !! name =
     match assoc_get name Status_table with
     | Some status => Some status
     | None => g !! name
     end) /\
  (forall name1 name2,
     name1 ∈ map fst Status_table -> name2 ∈ map fst Status_table ->
     _makeStatusTopLevel g !! name1 = _makeStatusTopLevel g !! name2 <->
     name1 = name2 \/
     (name1 = "FINISHED" /\ name2 = "STOPPED") \/
     (name1 = "STOPPED" /\ name2 = "FINISHED")).
Proof.
  assert (Hl : forall name,
             _makeStatusTopLevel g !! name =
             match assoc_get name Status_table with
             | Some status => Some status
             | None => g !! name
             end).
  { intros name. unfold _makeStatusTopLevel.
    by rewrite assign_all_lookup, for_in_object_lookup. }
  split; [exact Hl|].
  intros name1 name2 H1 H2. rewrite !Hl. clear Hl.
  cbn [map fst Status_table] in H1, H2.
  repeat (apply elem_of_cons in H1 as [->|H1]);
    [..|by apply elem_of_nil in H1];
    repeat (apply elem_of_cons in H2 as [->|H2]);
    try (by apply elem_of_nil in H2);
    vm_compute; split; intros H; try discriminate H; auto;
    destruct H as [H|[[H H']|[H H']]]; discriminate.
Qed.

(** *** The IP information *)

(** X17.  [_getParticipantIPInfo] changes no field but [_IP].  When it
    throws, [_IP] is the empty object and the error is wrapped with the
    context and origin of the method; for an answer whose status is not
    200 the message always ends in [undefined], the status text being
    read from the wrong object.  For an answer with status 200 and data
    that are neither [null] nor [undefined] it returns, and [_IP] holds
    the four fields read from the data. *)
Theorem getParticipantIPInfo_outcomes fetched t :
  let r := _getParticipantIPInfo fetched t in
  r.2 = with_IP (_IP r.2) t /\
  (forall e,
     r.1 = Throw e ->
     _IP r.2 = JObj [] /\
     exists error,
       e = JObj [("context",
                  JStr "when getting the IP information of the participant");
                 ("origin", JStr "PsychoJS._getParticipantIPInfo");
                 ("error", error)]) /\
  (forall getResponse,
     fetched = Ret getResponse ->
     response_status getResponse <> 200 ->
     r.1 = Throw
       (JObj [("context",
               JStr "when getting the IP information of the participant");
              ("origin", JStr "PsychoJS._getParticipantIPInfo");
              ("error",
               JStr "unable to obtain the IP of the participant: undefined")]))
  /\
  (forall getResponse geoData,
     fetched = Ret getResponse ->
     response_status getResponse = 200 ->
     response_json getResponse = Ret geoData ->
     geoData <> JUndefined -> geoData <> JNull ->
     r.1 = Ret tt /\
     exists country IP latitude longitude,
       js_get geoData "geoplugin_countryName" = Ret country /\
       js_get geoData "geoplugin_request" = Ret IP /\
       js_get geoData "geoplugin_latitude" = Ret latitude /\
       js_get geoData "geoplugin_longitude" = Ret longitude /\
       _IP r.2 = JObj [("country", country); ("IP", IP);
                       ("latitude", latitude); ("longitude", longitude)]).
Proof.
  intros r. subst r.
  unfold _getParticipantIPInfo, _getParticipantIPInfo_body, with_error.
  unfold bind, modify, try_catch, lift, when, throw, ret.
  destruct fetched as [[status json]|e0]; simpl.
  2:{ split; [by destruct t|]. split; [intros ? [= <-]; eauto|].
      split; [intros ? [=]|intros ? ? [=]]. }
  destruct (status =? 200) eqn:Hst; simpl.
  2:{ apply Z.eqb_neq in Hst.
      split; [by destruct t|]. split; [intros ? [= <-]; eauto|].
      split; [done|]. intros ? ? [= <-]. done. }
  apply Z.eqb_eq in Hst as ->.
  destruct json as [geoData|e0]; simpl.
  2:{ split; [by destruct t|]. split; [intros ? [= <-]; eauto|].
      split; [intros ? [= <-]; done|]. intros ? ? [= <-] _ [=]. }
  destruct geoData; simpl;
    (split; [by destruct t|]);
    (split; [first [intros ? [= <-]; by eauto | intros ? [=]]|]);
    (split; [intros ? [= <-]; done|]);
    intros ? ? [= <-] _ [= <-] ? ?; try done;
    (split; [done|]); eauto 10.
Qed.

(** *** The options of the constructor *)

Lemma options_configure (w : World) o configURL name :
  inv (fun t => options_of t = o) (_configure w configURL name).
Proof.
  intros t Ht.
  destruct ((_configure w configURL name t).1) as [[]|e] eqn:Hc.
  - apply (configure_ok_fields w) in Hc as (_ & Ho & _). congruence.
  - apply (configure_throw_cases w) in Hc as (_ & error & cfg & _ & ->).
    exact Ht.
Qed.

(** X16.  No method changes what the constructor took from its
    options: the approved hosts and the flags for the IP collection, the
    automatic start of the scheduler and the WebGL check. *)
Theorem options_never_change (w : World) t :
  (forall configURL expName surveyId,
     options_of (start w configURL expName surveyId t).2 = options_of t) /\
  (forall closeWindow isCompleted message showOK,
     options_of (quit w closeWindow isCompleted message showOK t).2 =
     options_of t) /\
  (forall closeWindow isCompleted,
     options_of (onTerminate closeWindow isCompleted t).2 = options_of t) /\
  options_of (unload_listener t).2 = options_of t /\
  options_of (openWindow t).2 = options_of t /\
  (forall completionUrl cancellationUrl,
     options_of (setRedirectUrls completionUrl cancellationUrl t).2 =
     options_of t).
Proof.
  refine (conj _ (conj _ (conj _ (conj _ (conj _ _))))); intros;
    match goal with
    | |- options_of (?m t).2 = _ =>
        enough (Hinv : inv (fun t' => options_of t' = options_of t) m)
          by exact (Hinv t eq_refl)
    end.
  - unfold start, start_body.
    inv_steps ltac:(idtac;
      lazymatch goal with
      | |- inv _ (_configure _ _ _) => apply options_configure
      | |- inv _ (start_after_configure _ _) => unfold_methods
      end); intros; assumption.
  - unfold_methods. inv_steps no_special; intros; assumption.
  - unfold_methods. inv_steps no_special; intros; assumption.
  - unfold_methods. inv_steps no_special; intros; assumption.
  - unfold_methods. inv_steps no_special; intros; assumption.
  - unfold_methods. inv_steps no_special; intros; assumption.
Qed.

(** *** The [unload] listener *)


(** *** Instances of the further properties *)


(** X2 on a run from the server of the library. *)
Lemma approved_host_test_witness :
  String.prefix "https://run.pavlovia.org/"
    (location_href (server_world modern_config)) = true /\
  isHost (server_world modern_config) (_hosts (new_PsychoJS default_options))
    = true.
Proof.
  split; [reflexivity|].
  apply (proj1 (approved_host_test (server_world modern_config)
                  default_options)).
  exists "https://run.pavlovia.org/".
  split; [left; repeat constructor | reflexivity].
Defined.

(** X3 on a run from a local web server. *)
Lemma getEnvironment_after_configure_witness :
  (_configure local_world "config.json" "stroop" fresh).1 = Ret tt /\
  (getEnvironment (_configure local_world "config.json" "stroop" fresh).2).1
    = Ret Environment.LOCAL.
Proof.
  assert (H : (_configure local_world "config.json" "stroop" fresh).1
              = Ret tt) by (vm_compute; reflexivity).
  split; [exact H|].
  exact (f_equal fst
           (proj2 (getEnvironment_after_configure local_world "config.json"
                     "stroop" fresh) H)).
Defined.

(** X4 on a configuration without [experiment.name]. *)
Lemma configure_failure_frame_witness :
  (_configure (server_world nameless_config) "config.json" "stroop" fresh).1
    = Throw (JObj [("context",
                    JStr "when configuring PsychoJS for the experiment");
                   ("origin", JStr "PsychoJS.configure");
                   ("error",
                    JStr "missing name in experiment block in configuration")])
  /\
  _status (_configure (server_world nameless_config) "config.json" "stroop"
             fresh).2 = Status.CONFIGURING /\
  events (_configure (server_world nameless_config) "config.json" "stroop"
            fresh).2 = [EvGetConfiguration "config.json"].
Proof.
  assert (H : (_configure (server_world nameless_config) "config.json"
                 "stroop" fresh).1
              = Throw (JObj [("context",
                    JStr "when configuring PsychoJS for the experiment");
                   ("origin", JStr "PsychoJS.configure");
                   ("error",
                    JStr "missing name in experiment block in configuration")]))
    by (vm_compute; reflexivity).
  split; [exact H|].
  destruct (configure_failure_frame (server_world nameless_config)
              "config.json" "stroop" fresh _ H)
    as (_ & _ & Hst & _ & _ & _ & Hev).
  split; [exact Hst | exact Hev].
Defined.

(** X5 on a fresh instance. *)
Lemma openWindow_once_witness :
  _window fresh = false /\
  (openWindow fresh).1 = Ret tt /\
  _window (openWindow fresh).2 = true.
Proof.
  split; [reflexivity|].
  destruct (proj1 (openWindow_once fresh) eq_refl) as (Hr & Hw & _).
  split; [exact Hr | exact Hw].
Defined.

(** X6 on a configuration without [experiment.name]. *)
Lemma start_wraps_configure_error_witness :
  (_configure (server_world nameless_config) "config.json" "stroop" fresh).1
    = Throw (JObj [("context",
                    JStr "when configuring PsychoJS for the experiment");
                   ("origin", JStr "PsychoJS.configure");
                   ("error",
                    JStr "missing name in experiment block in configuration")])
  /\
  _status (started (server_world nameless_config)) = Status.ERROR /\
  quit (server_world nameless_config) true false JUndefined true
    (started (server_world nameless_config))
    = (Throw JTypeError, started (server_world nameless_config)).
Proof.
  assert (H : (_configure (server_world nameless_config) "config.json"
                 "stroop" fresh).1
              = Throw (JObj [("context",
                    JStr "when configuring PsychoJS for the experiment");
                   ("origin", JStr "PsychoJS.configure");
                   ("error",
                    JStr "missing name in experiment block in configuration")]))
    by (vm_compute; reflexivity).
  split; [exact H|].
  destruct (start_wraps_configure_error (server_world nameless_config)
              "config.json" "stroop" JUndefined fresh _ H)
    as (_ & Hst & _ & _ & Hq).
  split; [exact Hst | exact (Hq eq_refl true false JUndefined true)].
Defined.

(** X7 on a run from a local web server. *)
Lemma start_local_run_witness :
  isHost local_world (_hosts fresh) = false /\
  (start local_world "config.json" "stroop" JUndefined fresh).1 = Ret tt /\
  events (started local_world)
    = [EvNewExperimentHandler; EvPrepareResources; EvSchedulerStart] /\
  _status (started local_world) = Status.STARTED.
Proof.
  assert (H : isHost local_world (_hosts fresh) = false)
    by (vm_compute; reflexivity).
  split; [exact H|].
  destruct (start_local_run local_world "config.json" "stroop" JUndefined
              fresh H) as (Hr & Hev & Hst & _).
  split; [exact Hr|]. split; [exact Hev | exact Hst].
Defined.

(** X8 on a run on the server. *)
Lemma start_final_status_spec_witness :
  (start (server_world modern_config) "config.json" "stroop" JUndefined
     fresh).1 = Ret tt /\
  _status (started (server_world modern_config)) = Status.STARTED.
Proof.
  assert (H : (start (server_world modern_config) "config.json" "stroop"
                 JUndefined fresh).1 = Ret tt) by (vm_compute; reflexivity).
  split; [exact H|].
  exact (start_final_status_spec (server_world modern_config) "config.json"
           "stroop" JUndefined fresh H).
Defined.

(** X9 on a run whose session cannot be opened. *)
Lemma start_openSession_failure_witness :
  (forall params c,
     (openSession failing_session_world params c).1
     = Throw (JStr "network error")) /\
  (start failing_session_world "config.json" "stroop" (JStr "s1") fresh).1
    = Throw (JObj [("context", JStr "when starting the experiment");
                   ("origin", JStr "PsychoJS.start");
                   ("error", JStr "network error")]) /\
  _status (start failing_session_world "config.json" "stroop" (JStr "s1")
             fresh).2 = Status.ERROR /\
  events (start failing_session_world "config.json" "stroop" (JStr "s1")
            fresh).2
    = [EvGetConfiguration "config.json"; EvNewExperimentHandler;
       EvOpenSession (JObj [("surveyId", JStr "s1")])].
Proof.
  split; [intros; reflexivity|].
  destruct (start_openSession_failure failing_session_world "config.json"
              "stroop" (JStr "s1") fresh (JStr "network error"))
    as (Hr & Hst & Hev & _);
    [ vm_compute; reflexivity | vm_compute; reflexivity
    | intros; reflexivity | ].
  split; [exact Hr|]. split; [exact Hst | exact Hev].
Defined.


(** X11 at the end of that run. *)
Lemma quit_clears_upload_timer_witness :
  upload_option "intervalId" (JNum 1) (_config (started (period_world 5))) /\
  List.filter is_timer_event
    (events (quit (period_world 5) true true JUndefined true
               (started (period_world 5))).2)
    = [EvSetInterval (Some 300000); EvClearInterval (JNum 1)].
Proof.
  assert (H : upload_option "intervalId" (JNum 1)
                (_config (started (period_world 5)))).
  { exists [("intervalId", JNum 1); ("period", JNum 5)].
    split; vm_compute; reflexivity. }
  split; [exact H|].
  apply (quit_clears_upload_timer (period_world 5)
           (started (period_world 5)) true true JUndefined true 1);
    [ vm_compute; eauto | exact H | lia ].
Defined.

(** X12 on a run on the server that is abandoned. *)
Lemma quit_incomplete_not_saved_witness :
  js_get_path (_config (started (server_world modern_config)))
    ["experiment"; "saveIncompleteResults"] = Ret JUndefined /\
  List.filter is_output_event
    (events (quit (server_world modern_config) true false JUndefined true
               (started (server_world modern_config))).2) = [].
Proof.
  assert (H : js_get_path (_config (started (server_world modern_config)))
                ["experiment"; "saveIncompleteResults"] = Ret JUndefined)
    by (vm_compute; reflexivity).
  split; [exact H|].
  apply (quit_incomplete_not_saved (server_world modern_config)
           (started (server_world modern_config)) true JUndefined true
           JUndefined H eq_refl).
Defined.

(** X13 on a run in which no window has been opened. *)
Lemma quit_showOK_false_without_window_witness :
  _window (started local_world) = false /\
  (exists e,
     (quit local_world true true JUndefined false (started local_world)).1
     = Throw e) /\
  _status (quit local_world true true JUndefined false
             (started local_world)).2 = Status.ERROR.
Proof.
  split; [reflexivity|].
  destruct (quit_showOK_false_without_window local_world
              (started local_world) true true JUndefined eq_refl)
    as (He & Hst).
  split; [exact He|]. apply Hst; [vm_compute; eauto | vm_compute; discriminate].
Defined.

(** X14 on a completed run with a window and both redirection URLs. *)
Lemma onTerminate_redirect_witness :
  _window (openWindow fresh).2 = true /\
  events (onTerminate true true
            (setRedirectUrls (JStr "https://a.org") (JStr "https://b.org")
               (openWindow fresh).2).2).2
    = [EvNewWindow; EvWindowClose; EvRemoveBodyChildren; EvCloseFullScreen;
       EvRedirect (JStr "https://a.org")].
Proof.
  split; [reflexivity|].
  destruct (proj1 (onTerminate_redirect (openWindow fresh).2 true true
                     (JStr "https://a.org") (JStr "https://b.org")) eq_refl)
    as (_ & _ & Hev).
  exact Hev.
Defined.


(** X17 on an answer with status 404. *)
Lemma getParticipantIPInfo_outcomes_witness :
  response_status not_found_response <> 200 /\
  (_getParticipantIPInfo (Ret not_found_response) fresh).1
    = Throw
        (JObj [("context",
                JStr "when getting the IP information of the participant");
               ("origin", JStr "PsychoJS._getParticipantIPInfo");
               ("error",
                JStr "unable to obtain the IP of the participant: undefined")]).
Proof.
  assert (H : response_status not_found_response <> 200) by discriminate.
  split; [exact H|].
  destruct (getParticipantIPInfo_outcomes (Ret not_found_response) fresh)
    as (_ & _ & Hbad & _).
  exact (Hbad not_found_response eq_refl H).
Defined.


(** X19 on the two names of the final status. *)
Lemma makeStatusTopLevel_globals_witness :
  "STOPPED" ∈ map fst Status_table /\
  "FINISHED" ∈ map fst Status_table /\
  _makeStatusTopLevel ∅ !! "STOPPED" = _makeStatusTopLevel ∅ !! "FINISHED".
Proof.
  assert (H1 : "STOPPED" ∈ map fst Status_table) by repeat constructor.
  assert (H2 : "FINISHED" ∈ map fst Status_table) by repeat constructor.
  split; [exact H1|]. split; [exact H2|].
  apply (proj2 (makeStatusTopLevel_globals ∅) "STOPPED" "FINISHED" H1 H2).
  right. right. split; reflexivity.
Defined.
